(** * Verification of the clone orchestration core of DAX-ai

    Shallow embedding of [db.py] (credential vault and referral ledger),
    [clone_worker.py] (per-clone worker: key rotation, chat handler,
    owner commands) and the handlers of the master bot [bot.py]
    (referrals, [/share], [/start], [chat] with its key pool, the
    instruction commands, the [/clone] conversation and startup).

    The SQLite tables are finite maps keyed by [user_id]; Python
    exceptions are the [Raise] branch of [result]; the external
    collaborators (Fernet, the Gemini client, the Telegram probe and
    [subprocess.Popen]) are oracles passed as arguments. *)

From stdpp Require Import base gmap strings pretty list sorting.
From Stdlib Require Import String Ascii ZArith Lia.

Open Scope string_scope.
Open Scope Z_scope.

(* ------------------------------------------------------------------ *)
(** ** Python values, exceptions and string helpers *)

(** The exceptions the modelled code can raise. *)
Inductive exc :=
| RuntimeError (msg : string)
| TypeError (msg : string)
| RecursionError
| SystemExit (code : Z)
| GenerationError (msg : string).   (** raised by [model.generate_content] *)

Inductive result (A : Type) :=
| Ok (a : A)
| Raise (e : exc).
Arguments Ok {A} a.
Arguments Raise {A} e.

Definition exc_str (e : exc) : string :=
  match e with
  | RuntimeError m | TypeError m | GenerationError m => m
  | RecursionError => "maximum recursion depth exceeded"
  | SystemExit c => pretty c
  end.

(** The newline character. *)
Definition nl : string := String (ascii_of_nat 10) EmptyString.

(** Python's [needle in haystack] for strings. *)
Fixpoint str_contains (needle hay : string) : bool :=
  if String.prefix needle hay then true
  else match hay with
       | EmptyString => false
       | String _ rest => str_contains needle rest
       end.

(** [str(n)] for a Python int. *)
Definition z_str (n : Z) : string := pretty n.

(** Truthiness of a Python [str]. *)
Definition truthy (s : string) : bool :=
  match s with EmptyString => false | _ => true end.

(** Arguments of a Python call, as far as the modelled calls need them. *)
Inductive pyval :=
| PyInt (n : Z)
| PyStr (s : string).

(* ------------------------------------------------------------------ *)
(** ** The cipher: [cryptography.fernet.Fernet]

    [encrypt key iv plaintext] stands for [Fernet(key).encrypt], whose
    random IV and timestamp are the [iv] argument; [decrypt key c]
    returns [None] where [Fernet(key).decrypt] raises [InvalidToken].
    Plaintexts are the Python [str] before [.encode()]. *)
Class Fernet := {
  fernet_token : Type;
  fernet_encrypt : string -> Z -> string -> fernet_token;
  fernet_decrypt : string -> fernet_token -> option string
}.

(* ------------------------------------------------------------------ *)
(** ** [db.py]: the vault *)
Module Vault.
Section Vault.
Context `{F : Fernet}.

(** A row of table [clones]. *)
Record clone_row := mkCloneRow {
  bot_username : string;
  token_encrypted : fernet_token;
  instructions : string;
  active : bool
}.

(** A row of table [referrals]. *)
Record referral_row := mkReferralRow {
  count : Z;
  verified : bool
}.

(** The database behind [_conn]. *)
Record db := mkDb {
  clones : gmap Z clone_row;
  referrals : gmap Z referral_row
}.

(** The dict returned by [get_clone]. *)
Record clone_dict := mkCloneDict {
  cd_user_id : Z;
  cd_bot_username : string;
  cd_token : string;
  cd_instructions : string;
  cd_active : bool
}.

(** [save_clone]: encrypt, then upsert every column and set [active=1].
    [master] is [MASTER_KEY], [iv] the Fernet nonce of this call. *)
Definition save_clone (master : string) (iv : Z) (user_id : Z)
    (token_plain bot_username' instructions' : string) (d : db) : db :=
  let token_enc := fernet_encrypt master iv token_plain in
  mkDb (<[user_id := mkCloneRow bot_username' token_enc instructions' true]>
          (clones d))
       (referrals d).

(** The error text of [get_clone] when decryption fails. *)
Definition decrypt_failed_msg : string :=
  "Failed to decrypt token: invalid MASTER_KEY or corrupted DB".

(** [get_clone]. *)
Definition get_clone (master : string) (user_id : Z) (d : db)
    : result (option clone_dict) :=
  match clones d !! user_id with
  | None => Ok None
  | Some row =>
      match fernet_decrypt master (token_encrypted row) with
      | None => Raise (RuntimeError decrypt_failed_msg)
      | Some token =>
          Ok (Some (mkCloneDict user_id (bot_username row) token
                      (instructions row) (active row)))
      end
  end.

(** [save_clone] called with Python positional arguments: the function
    takes exactly four, anything else raises [TypeError]. *)
Definition call_save_clone (master : string) (iv : Z) (args : list pyval)
    (d : db) : result db :=
  match args with
  | [PyInt uid; PyStr tok; PyStr bu; PyStr ins] =>
      Ok (save_clone master iv uid tok bu ins d)
  | _ => Raise (TypeError "save_clone() takes 4 positional arguments")
  end.

(** The loop of [list_active_clones] over the selected ids. *)
Fixpoint collect_clones (master : string) (uids : list Z) (d : db)
    : result (list clone_dict) :=
  match uids with
  | [] => Ok []
  | uid :: rest =>
      match get_clone master uid d with
      | Raise e => Raise e
      | Ok c =>
          match collect_clones master rest d with
          | Raise e => Raise e
          | Ok cs => Ok (match c with Some c' => c' :: cs | None => cs end)
          end
      end
  end.

(** [SELECT user_id FROM clones WHERE active=1]: the table's primary
    key [user_id] is its rowid, so SQLite's table scan returns the
    selected ids in ascending order. *)
Definition active_ids (d : db) : list Z :=
  merge_sort Z.le (map_to_list (filter (fun kv => active kv.2 = true) (clones d))).*1.

(** [list_active_clones]. *)
Definition list_active_clones (master : string) (d : db)
    : result (list clone_dict) :=
  collect_clones master (active_ids d) d.

(** The dict returned by [get_referral] and [increment_referral]. *)
Record referral_dict := mkReferralDict {
  rd_user_id : Z;
  rd_count : Z;
  rd_verified : bool
}.

(** [get_referral]. *)
Definition get_referral (user_id : Z) (d : db) : option referral_dict :=
  match referrals d !! user_id with
  | None => None
  | Some r => Some (mkReferralDict user_id (count r) (verified r))
  end.

(** [ensure_referral_row]: [INSERT OR IGNORE ... VALUES (?, 0, 0)]. *)
Definition ensure_referral_row (user_id : Z) (d : db) : db :=
  match referrals d !! user_id with
  | Some _ => d
  | None => mkDb (clones d) (<[user_id := mkReferralRow 0 false]> (referrals d))
  end.

(** [UPDATE referrals SET count = count + 1 WHERE user_id=?]. *)
Definition bump_count (user_id : Z) (d : db) : db :=
  match referrals d !! user_id with
  | None => d
  | Some r => mkDb (clones d)
                (<[user_id := mkReferralRow (count r + 1) (verified r)]> (referrals d))
  end.

(** [UPDATE referrals SET verified = 1 WHERE user_id=?]. *)
Definition mark_verified (user_id : Z) (d : db) : db :=
  match referrals d !! user_id with
  | None => d
  | Some r => mkDb (clones d)
                (<[user_id := mkReferralRow (count r) true]> (referrals d))
  end.

(** [increment_referral], with [threshold] = [REFERRAL_THRESHOLD]. *)
Definition increment_referral (threshold : Z) (user_id : Z) (d : db)
    : db * referral_dict :=
  let d1 := bump_count user_id (ensure_referral_row user_id d) in
  let '(c, v) := match referrals d1 !! user_id with
                 | Some r => (count r, verified r)
                 | None => (0%Z, false)   (* unreachable: the row was ensured *)
                 end in
  if negb v && (threshold <=? c) then
    (mark_verified user_id d1, mkReferralDict user_id c true)
  else (d1, mkReferralDict user_id c v).

(** The persisted referral count of [user_id]; an absent row reads as 0,
    as in [owner_remaining_referrals]. *)
Definition referral_count (user_id : Z) (d : db) : Z :=
  match get_referral user_id d with Some r => rd_count r | None => 0 end.

(** The persisted [verified] flag of [user_id]; an absent row reads as
    false. *)
Definition referral_verified (user_id : Z) (d : db) : bool :=
  match get_referral user_id d with Some r => rd_verified r | None => false end.

(** [n] successive [increment_referral(user_id)] calls. *)
Definition increments (threshold user_id : Z) (n : nat) (d : db) : db :=
  Nat.iter n (fun d' => fst (increment_referral threshold user_id d')) d.

(** [deactivate_clone]: [UPDATE clones SET active=0 WHERE user_id=?]. *)
Definition deactivate_clone (user_id : Z) (d : db) : db :=
  match clones d !! user_id with
  | None => d
  | Some r => mkDb (<[user_id := mkCloneRow (bot_username r) (token_encrypted r)
                                   (instructions r) false]> (clones d))
                   (referrals d)
  end.

(** [set_referral_verified]: ensure the row, then
    [UPDATE referrals SET verified = ? WHERE user_id=?]. *)
Definition set_referral_verified (user_id : Z) (verified' : bool) (d : db) : db :=
  let d1 := ensure_referral_row user_id d in
  match referrals d1 !! user_id with
  | None => d1
  | Some r => mkDb (clones d1) (<[user_id := mkReferralRow (count r) verified']> (referrals d1))
  end.

(** [set_referral_count], with [threshold] = [REFERRAL_THRESHOLD]:
    ensure the row, then
    [UPDATE referrals SET count = ?, verified = ? WHERE user_id=?]. *)
Definition set_referral_count (threshold : Z) (user_id : Z) (count' : Z) (d : db) : db :=
  let d1 := ensure_referral_row user_id d in
  let verified' := threshold <=? count' in
  match referrals d1 !! user_id with
  | None => d1
  | Some _ => mkDb (clones d1) (<[user_id := mkReferralRow count' verified']> (referrals d1))
  end.

End Vault.
End Vault.

(* ------------------------------------------------------------------ *)
(** ** [bot.py]: the orchestrator *)
Module Master.
Import Vault.
Section Master.
Context `{F : Fernet}.

(** Process state of the master bot: the database and the in-memory
    dicts [referral_codes], [referral_users] and [user_referrals]. *)
Record master_state := mkMasterState {
  m_db : db;
  referral_codes : gmap string Z;
  referral_users : gmap Z Z;
  user_referrals : gmap Z referral_row
}.

(** Messages the handlers send: [context.bot.send_message(chat, text)]
    and [update.message.reply_text(text)]. *)
Inductive outgoing :=
| SendMessage (chat : Z) (text : string)
| ReplyText (text : string).

Definition premium_msg : string :=
  "✨ Premium Experience Unlocked! ✨" ++ nl ++ nl ++ "🎊 Thank you for sharing!"
  ++ nl ++ "✅ The watermark has been removed from your bot.".

Definition joined_msg (new_username : string) (cnt remaining : Z) : string :=
  "🎉 @" ++ new_username ++ " joined using your referral link!" ++ nl
  ++ "📊 You now have " ++ z_str cnt ++ " referrals. " ++ z_str remaining
  ++ " more to remove the watermark.".

Definition welcome_referral_msg : string :=
  "👋 Welcome! You joined through a friend's referral." ++ nl ++ nl
  ++ "Use /clone to create your own AI bot or just start chatting! 🚀".

Definition default_greeting_msg : string :=
  "🤖 Hello! Welcome to the DAX AI bot experience!" ++ nl ++ nl
  ++ "Use /clone to create your own AI assistant with custom instructions!".

(** [handle_referral].  The [except] around [increment_referral] is not
    reachable in the model, whose database operations are total. *)
Definition handle_referral (threshold : Z) (referral_code : string)
    (new_user_id : Z) (new_username : string) (st : master_state)
    : master_state * list outgoing :=
  match referral_codes st !! referral_code with
  | None => (st, [ReplyText default_greeting_msg])
  | Some referrer_id =>
      match referral_users st !! new_user_id with
      | Some _ => (st, [ReplyText welcome_referral_msg])
      | None =>
          let users' := <[new_user_id := referrer_id]> (referral_users st) in
          let '(d', ref_row) := increment_referral threshold referrer_id (m_db st) in
          let cached := mkReferralRow (rd_count ref_row) (rd_verified ref_row) in
          let remaining := Z.max 0 (threshold - rd_count ref_row) in
          let crossing := negb (rd_verified ref_row) && (threshold <=? rd_count ref_row) in
          let cached' := if crossing then mkReferralRow (count cached) true else cached in
          let note := if crossing then premium_msg
                      else joined_msg new_username (rd_count ref_row) remaining in
          (mkMasterState d' (referral_codes st) users'
             (<[referrer_id := cached']> (user_referrals st)),
           [SendMessage referrer_id note; ReplyText welcome_referral_msg])
      end
  end.

(** [spawn_clone_worker]: raises when [MASTER_KEY] is absent from the
    environment; otherwise the result of [subprocess.Popen] (an oracle
    giving the pid or the raised error). *)
Definition spawn_clone_worker (has_master_key : bool)
    (popen : Z -> result Z) (user_id : Z) : result Z :=
  if has_master_key then popen user_id
  else Raise (RuntimeError "MASTER_KEY missing").

(** The inner loop of the startup block of [main]: one
    [spawn_clone_worker] call per record, failures logged and skipped.
    Returns the ids passed to [spawn_clone_worker], in call order, and
    the error log. *)
Fixpoint spawn_all (has_master_key : bool) (popen : Z -> result Z)
    (active : list clone_dict) : list Z * list string :=
  match active with
  | [] => ([], [])
  | rec :: rest =>
      let uid := cd_user_id rec in
      let '(attempts, logs) := spawn_all has_master_key popen rest in
      match spawn_clone_worker has_master_key popen uid with
      | Ok _ => (uid :: attempts, logs)
      | Raise e =>
          (uid :: attempts,
           ("Failed to spawn worker for " ++ z_str uid ++ ": " ++ exc_str e) :: logs)
      end
  end.

(** The startup block of [main]: respawn the active clones. *)
Definition reconcile_on_startup (master : string) (has_master_key : bool)
    (popen : Z -> result Z) (d : db) : list Z * list string :=
  match list_active_clones master d with
  | Raise e => ([], ["Failed to load active clones from DB: " ++ exc_str e])
  | Ok active => spawn_all has_master_key popen active
  end.

End Master.
End Master.

(* ------------------------------------------------------------------ *)
(** ** [clone_worker.py]: the worker process *)

(** The module globals [current_key_index] and [model] of a worker;
    [model] is [None] or the key [genai] was configured with when the
    [GenerativeModel] was built. *)
Record globals := mkGlobals {
  current_key_index : nat;
  model : option string
}.

(** A [GenerateContentResponse]: its [text] attribute and its [str()]. *)
Record gen_response := mkGenResponse {
  resp_text : option string;
  resp_str : string
}.

(** Observable effects of a handler. *)
Inductive event :=
| EvGenerate (key prompt : string)   (** [model.generate_content(prompt)] *)
| EvReply (text : string)            (** [update.message.reply_text(text)] *)
| EvLog (text : string).             (** [logger.error(...)] *)

(** The worker's computations: state over [globals], a trace of
    events, and Python exceptions. *)
Definition PyM (A : Type) : Type := globals -> globals * list event * result A.

Definition py_ret {A} (a : A) : PyM A := fun g => (g, [], Ok a).

Definition py_bind {A B} (m : PyM A) (k : A -> PyM B) : PyM B :=
  fun g =>
    match m g with
    | (g1, t1, Ok a) => let '(g2, t2, r) := k a g1 in (g2, app t1 t2, r)
    | (g1, t1, Raise e) => (g1, t1, Raise e)
    end.

Definition py_raise {A} (e : exc) : PyM A := fun g => (g, [], Raise e).

(** [try: m except Exception as e: h(e)]. *)
Definition py_try {A} (m : PyM A) (h : exc -> PyM A) : PyM A :=
  fun g =>
    match m g with
    | (g1, t1, Raise e) => let '(g2, t2, r) := h e g1 in (g2, app t1 t2, r)
    | x => x
    end.

Definition py_get : PyM globals := fun g => (g, [], Ok g).
Definition py_put (g' : globals) : PyM unit := fun _ => (g', [], Ok tt).
Definition py_emit (ev : event) : PyM unit := fun g => (g, [ev], Ok tt).
Definition py_lift {A} (r : result A) : PyM A := fun g => (g, [], r).

Global Instance py_mret : MRet PyM := @py_ret.
Global Instance py_mbind : MBind PyM := fun A B k m => py_bind m k.

Definition reply (text : string) : PyM unit := py_emit (EvReply text).

Definition rotation_notice : string := "Bug error😥 — please try again.".
Definition generic_failure_notice : string := "⚠️ Sorry, I couldn't process that right now. Try again later".

Module Worker.
Import Vault.
Section Worker.
Context `{F : Fernet}.
(** [CLONE_USER_ID], [GEMINI_API_KEYS], [MASTER_KEY] and
    [REFERRAL_THRESHOLD] of the worker process. *)
Context (CLONE_USER_ID : Z) (GEMINI_API_KEYS : list string)
        (MASTER_KEY : string) (REFERRAL_THRESHOLD : Z).
(** Whether [genai.configure(api_key=k)] and [GenerativeModel(...)]
    succeed for key [k]. *)
Context (configure_ok : string -> bool).
(** The Python recursion depth still available to [configure_gemini]. *)
Context (recursion_limit : nat).

(** [configure_gemini], recursing on the next key after a failure.  The
    key lookup is inside the [try], so an index out of range is handled
    by the [except] like a key that fails to configure.  The trace of a
    worker records the replies and the [logger.error] lines of
    [chat_handler]; the log lines of [configure_gemini] and
    [rotate_gemini_key] are not traced. *)
Fixpoint configure_gemini_aux (fuel : nat) : PyM unit :=
  fun g =>
    match GEMINI_API_KEYS with
    | [] => (mkGlobals (current_key_index g) None, [], Ok tt)
    | _ =>
        match fuel with
        | O => (g, [], Raise RecursionError)
        | S fuel' =>
            let configured :=
              match nth_error GEMINI_API_KEYS (current_key_index g) with
              | Some k => if configure_ok k then Some k else None
              | None => None
              end in
            match configured with
            | Some k => (mkGlobals (current_key_index g) (Some k), [], Ok tt)
            | None =>
                if 1 <? List.length GEMINI_API_KEYS then
                  configure_gemini_aux fuel'
                    (mkGlobals (S (current_key_index g) mod List.length GEMINI_API_KEYS)
                       (model g))
                else (mkGlobals (current_key_index g) None, [], Ok tt)
            end
        end
    end%nat.

Definition configure_gemini : PyM unit := configure_gemini_aux recursion_limit.

(** [rotate_gemini_key]. *)
Definition rotate_gemini_key : PyM unit :=
  fun g =>
    match GEMINI_API_KEYS with
    | [] => (g, [], Ok tt)
    | _ =>
        configure_gemini
          (mkGlobals (S (current_key_index g) mod List.length GEMINI_API_KEYS) (model g))
    end.

(** [owner_remaining_referrals]: the owner's [(remaining, verified)]. *)
Definition owner_remaining_referrals (d : db) : Z * bool :=
  let '(c, v) := match get_referral CLONE_USER_ID d with
                 | Some r => (rd_count r, rd_verified r)
                 | None => (0, false)
                 end in
  (Z.max 0 (REFERRAL_THRESHOLD - c), v).

(** The watermark appended to replies of an unverified owner. *)
Definition watermark (remaining : Z) : string :=
  nl ++ nl ++ "┈┈┈┈┈┈┈┈┈┈┈┈" ++ nl ++ "🔹 Made by @dn_aimaker_bot" ++ nl
  ++ "📊 " ++ z_str remaining ++ " referrals needed to remove watermark".

(** [text + watermark] when the owner is not verified. *)
Definition with_watermark (d : db) (text : string) : string :=
  let '(remaining, verified) := owner_remaining_referrals d in
  if verified then text else text ++ watermark remaining.

(** The prompt built by [chat_handler]. *)
Definition build_prompt (instructions user_text : string) : string :=
  if truthy instructions then instructions ++ nl ++ nl ++ "User: " ++ user_text
  else user_text.

(** The reply of [chat_handler] when no model is configured. *)
Definition echo_response (instructions user_text : string) : string :=
  if truthy instructions then instructions ++ nl ++ nl ++ "You said: " ++ user_text
  else "You said: " ++ user_text.

(** [getattr(gen_response, "text", None) or str(gen_response)]. *)
Definition response_text (r : gen_response) : string :=
  match resp_text r with
  | Some t => if truthy t then t else resp_str r
  | None => resp_str r
  end.

(** The quota test of the [except] branch of [chat_handler]. *)
Definition is_quota_error (msg : string) : bool :=
  str_contains "429" msg || str_contains "quota" msg || str_contains "rate" msg.

(** [model.generate_content(prompt)], the service being the oracle
    [generate key prompt]. *)
Definition generate_content (generate : string -> string -> result gen_response)
    (prompt : string) : PyM gen_response :=
  fun g =>
    match model g with
    | None => (g, [], Raise (RuntimeError "'NoneType' object has no attribute 'generate_content'"))
    | Some k => (g, [EvGenerate k prompt], generate k prompt)
    end.

(** [check_and_exit_if_bot_dead]: [alive] is the outcome of
    [check_clone_alive], i.e. whether [bot.get_me()] succeeds. *)
Definition check_and_exit_if_bot_dead (alive : string -> bool) (token : string)
    : PyM unit :=
  if alive token then mret tt else py_raise (SystemExit 0).

(** [chat_handler], on a message with text [message_text] (the
    [MessageHandler] filter admits only text messages). *)
Definition chat_handler (alive : string -> bool)
    (generate : string -> string -> result gen_response)
    (d : db) (message_text : option string) : PyM unit :=
  clone ← py_lift (get_clone MASTER_KEY CLONE_USER_ID d);
  let token := match clone with Some c => cd_token c | None => "" end in
  (if truthy token then check_and_exit_if_bot_dead alive token else mret tt);;
  let instructions := match clone with Some c => cd_instructions c | None => "" end in
  let user_text := default "" message_text in
  g ← py_get;
  match model g with
  | None => reply (with_watermark d (echo_response instructions user_text))
  | Some _ =>
      let prompt := build_prompt instructions user_text in
      py_try
        (resp ← generate_content generate prompt;
         reply (with_watermark d (response_text resp)))
        (fun e =>
           py_emit (EvLog ("Gemini API error: " ++ exc_str e));;
           if is_quota_error (exc_str e) then
             rotate_gemini_key;; reply rotation_notice
           else reply generic_failure_notice)
  end.

(** [str.strip()] on the UTF-8 bytes of the text (Telegram delivers
    valid UTF-8).  The characters it removes are those of
    [str.isspace()]; one byte for U+0009-U+000D and U+001C-U+0020. *)
Definition is_space (c : ascii) : bool :=
  let n := nat_of_ascii c in
  ((9 <=? n) && (n <=? 13) || (28 <=? n) && (n <=? 32))%nat.

(** Two bytes: U+0085 and U+00A0. *)
Definition is_space2 (c1 c2 : ascii) : bool :=
  let a := nat_of_ascii c1 in let b := nat_of_ascii c2 in
  ((a =? 194) && ((b =? 133) || (b =? 160)))%nat.

(** Three bytes: U+1680, U+2000-U+200A, U+2028, U+2029, U+202F, U+205F
    and U+3000. *)
Definition is_space3 (c1 c2 c3 : ascii) : bool :=
  let a := nat_of_ascii c1 in let b := nat_of_ascii c2 in let c := nat_of_ascii c3 in
  ((a =? 225) && (b =? 154) && (c =? 128)
   || (a =? 226) && (b =? 128) &&
        ((128 <=? c) && (c <=? 138) || (c =? 168) || (c =? 169) || (c =? 175))
   || (a =? 226) && (b =? 129) && (c =? 159)
   || (a =? 227) && (b =? 128) && (c =? 128))%nat.

(** Leading whitespace characters.  In valid UTF-8 a lead byte is never
    a continuation byte, so matching the encodings at the front finds
    exactly the leading whitespace characters. *)
Fixpoint lstrip (s : string) : string :=
  match s with
  | EmptyString => EmptyString
  | String c1 s1 =>
      if is_space c1 then lstrip s1 else
      match s1 with
      | EmptyString => s
      | String c2 s2 =>
          if is_space2 c1 c2 then lstrip s2 else
          match s2 with
          | EmptyString => s
          | String c3 s3 => if is_space3 c1 c2 c3 then lstrip s3 else s
          end
      end
  end.

(** Trailing whitespace, on the reversed bytes: the encodings matched
    backwards from the end all start with a lead byte or are ASCII, so
    they are whole characters of valid UTF-8. *)
Fixpoint rstrip_rev (l : list ascii) : list ascii :=
  match l with
  | [] => []
  | c1 :: l1 =>
      if is_space c1 then rstrip_rev l1 else
      match l1 with
      | [] => l
      | c2 :: l2 =>
          if is_space2 c2 c1 then rstrip_rev l2 else
          match l2 with
          | [] => l
          | c3 :: l3 => if is_space3 c3 c2 c1 then rstrip_rev l3 else l
          end
      end
  end.

Definition rstrip (s : string) : string :=
  string_of_list_ascii (rev (rstrip_rev (rev (list_ascii_of_string s)))).

Definition strip (s : string) : string := rstrip (lstrip s).

(** [sep.join(xs)]. *)
Fixpoint join (sep : string) (xs : list string) : string :=
  match xs with
  | [] => ""
  | [x] => x
  | x :: rest => x ++ sep ++ join sep rest
  end.

(** [set_instructions], on a command from [sender_id] with
    [context.args] = [args]; [iv] is the nonce of the Fernet encryption
    inside [save_clone].  Returns the database after the call. *)
Definition set_instructions (iv : Z) (sender_id : Z) (args : list string)
    (d : db) : PyM db :=
  if negb (sender_id =? CLONE_USER_ID) then
    reply "❌ Only the owner can change instructions.";; mret d
  else
    clone ← py_lift (get_clone MASTER_KEY CLONE_USER_ID d);
    match clone with
    | None => reply "❌ Clone record not found.";; mret d
    | Some c =>
        match args with
        | _ :: _ =>
            let new_instructions := strip (join " " args) in
            (* save_clone(CLONE_USER_ID, token, bot_username,
                          new_instructions, owner_username) *)
            match call_save_clone MASTER_KEY iv
                    [PyInt CLONE_USER_ID; PyStr (cd_token c); PyStr (cd_bot_username c);
                     PyStr new_instructions; PyStr ""] d with
            | Ok d' => reply "✅ Instructions updated.";; mret d'
            | Raise e =>
                py_emit (EvLog ("Failed saving instructions: " ++ exc_str e));;
                reply "❌ Failed to save instructions.";; mret d
            end
        | [] =>
            let current := if truthy (cd_instructions c) then cd_instructions c
                           else "(none)" in
            reply ("📝 Current instructions:" ++ nl ++ nl ++ current ++ nl ++ nl
                   ++ "To change: /set_instructions [text]" ++ nl
                   ++ "To clear: /clear_instructions");;
            mret d
        end
    end.

(** [clear_instructions]; as in [set_instructions], [save_clone] gets
    five positional arguments. *)
Definition clear_instructions (iv : Z) (sender_id : Z) (d : db) : PyM db :=
  if negb (sender_id =? CLONE_USER_ID) then
    reply "❌ Only the owner can clear instructions.";; mret d
  else
    clone ← py_lift (get_clone MASTER_KEY CLONE_USER_ID d);
    match clone with
    | None => reply "❌ Clone record not found.";; mret d
    | Some c =>
        (* save_clone(CLONE_USER_ID, token, bot_username, "", owner_username) *)
        match call_save_clone MASTER_KEY iv
                [PyInt CLONE_USER_ID; PyStr (cd_token c); PyStr (cd_bot_username c);
                 PyStr ""; PyStr ""] d with
        | Ok d' => reply "✅ Instructions cleared.";; mret d'
        | Raise e =>
            py_emit (EvLog ("Failed clearing instructions: " ++ exc_str e));;
            reply "❌ Failed to clear instructions.";; mret d
        end
    end.

(** Values of the dict built by [get_clone]. *)
Inductive dict_val :=
| DInt (n : Z)
| DStr (s : string)
| DBool (b : bool).

(** The items of the dict returned by [get_clone]. *)
Definition clone_dict_items (c : clone_dict) : list (string * dict_val) :=
  [("user_id", DInt (cd_user_id c)); ("bot_username", DStr (cd_bot_username c));
   ("token", DStr (cd_token c)); ("instructions", DStr (cd_instructions c));
   ("active", DBool (cd_active c))].

(** [dict.get(key, default)]. *)
Fixpoint dict_get (items : list (string * dict_val)) (key : string) (dflt : dict_val)
    : dict_val :=
  match items with
  | [] => dflt
  | (k, v) :: rest => if String.eqb k key then v else dict_get rest key dflt
  end.

Definition dict_val_truthy (v : dict_val) : bool :=
  match v with
  | DInt n => negb (n =? 0)
  | DStr s => truthy s
  | DBool b => b
  end.

(** [str(v)] / an f-string field. *)
Definition dict_val_str (v : dict_val) : string :=
  match v with
  | DInt n => z_str n
  | DStr s => s
  | DBool b => if b then "True" else "False"
  end.

(** [start_cmd], for a sender with [id], [first_name] and optional
    [username]. *)
Definition start_cmd (sender_id : Z) (first_name : string) (username : option string)
    (d : db) : PyM unit :=
  let sender_name :=
    if truthy first_name then first_name
    else match username with
         | Some u => if truthy u then u else z_str sender_id
         | None => z_str sender_id
         end in
  clone ← py_lift (get_clone MASTER_KEY CLONE_USER_ID d);
  let owner_username := match clone with
                        | Some c => dict_get (clone_dict_items c) "owner_username" (DStr "")
                        | None => DStr ""
                        end in
  let owner_display := if dict_val_truthy owner_username
                       then "@" ++ dict_val_str owner_username
                       else "user_" ++ z_str CLONE_USER_ID in
  reply ("Hey " ++ sender_name ++ ", I am " ++ owner_display
         ++ " ai do you understand what I mean?").

(** The start of the worker's [main], up to building the application:
    configure Gemini, load the clone record, exit with code 3 when there
    is none; returns the token the application is built with. *)
Definition worker_main (d : db) : PyM string :=
  configure_gemini;;
  clone ← py_lift (get_clone MASTER_KEY CLONE_USER_ID d);
  match clone with
  | None =>
      py_emit (EvLog ("No clone record in DB for user " ++ z_str CLONE_USER_ID));;
      py_raise (SystemExit 3)
  | Some c => mret (cd_token c)
  end.

End Worker.
End Worker.

(* ------------------------------------------------------------------ *)
(** ** [bot.py]: the orchestrator's commands *)
Module MasterCmds.
Import Vault Master.
Section MasterCmds.
Context `{F : Fernet}.

Definition not_cloned_msg : string :=
  "⚠️ You need to create your own bot first using /clone to use the referral system!👀".

Definition share_msg (referral_link : string) (cnt remaining : Z) : string :=
  "📣 Referral Program" ++ nl ++ nl
  ++ "🔗 Your unique link: " ++ referral_link ++ nl ++ nl
  ++ "📊 Progress: " ++ z_str cnt ++ "/5 referrals" ++ nl
  ++ "🎯 Remaining: " ++ z_str remaining ++ " more to remove watermark" ++ nl ++ nl
  ++ "How it works:" ++ nl
  ++ "• Share your unique link with friends" ++ nl
  ++ "• When they join using your link, it counts" ++ nl
  ++ "• After 5 real joins, watermark disappears" ++ nl ++ nl
  ++ "✨ No fake clicks - only real joins count!".

(** [share_command].  [cloned_apps] is the module dict of that name
    (which no function of [bot.py] writes), [hex] the value of
    [os.urandom(4).hex()] and [master_username] the username returned by
    [context.bot.get_me()]. *)
Definition share_command (master : string) (cloned_apps : gset Z) (user_id : Z)
    (hex master_username : string) (st : master_state)
    : result (master_state * list outgoing) :=
  let registered :=
    if decide (user_id ∈ cloned_apps) then Ok true
    else match list_active_clones master (m_db st) with
         | Raise e => Raise e
         | Ok cs => Ok (bool_decide (user_id ∈ map cd_user_id cs))
         end in
  match registered with
  | Raise e => Raise e
  | Ok false => Ok (st, [ReplyText not_cloned_msg])
  | Ok true =>
      let referral_code := "ref_" ++ z_str user_id ++ "_" ++ hex in
      let codes' := <[referral_code := user_id]> (referral_codes st) in
      let refs' := match user_referrals st !! user_id with
                   | Some _ => user_referrals st
                   | None => <[user_id := mkReferralRow 0 false]> (user_referrals st)
                   end in
      let cnt := count (default (mkReferralRow 0 false) (refs' !! user_id)) in
      let referral_link := "https://t.me/" ++ master_username ++ "?start=" ++ referral_code in
      Ok (mkMasterState (m_db st) codes' (referral_users st) refs',
          [ReplyText (share_msg referral_link cnt (5 - cnt))])
  end.

Definition live_msg (bot_username' instructions' : string) : string :=
  "🎉 Your AI bot @" ++ bot_username' ++ " is now live!" ++ nl ++ nl
  ++ "📝 Instructions: _" ++ instructions' ++ "_" ++ nl ++ nl
  ++ "⚠️ Your bot will have a watermark until you share with 5 friends." ++ nl
  ++ "Use /share to get your referral link and remove the watermark!".

Definition start_failed_msg : string := "❌ Failed to start your bot😥. Please try again.".

(** [receive_instructions], on the message [text] of [user_id], with
    [clone_token] and [clone_username] from [context.user_data];
    [user_instructions] is the module dict.  Returns the new
    [user_instructions], the new state, the replies and the error log. *)
Definition receive_instructions (master : string) (iv : Z) (has_master_key : bool)
    (popen : Z -> result Z) (user_id : Z) (text clone_token clone_username : string)
    (user_instructions : gmap Z string) (st : master_state)
    : gmap Z string * master_state * list outgoing * list string :=
  let instructions' := Worker.strip text in
  let ui' := <[user_id := instructions']> user_instructions in
  let d' := save_clone master iv user_id clone_token clone_username instructions' (m_db st) in
  match spawn_clone_worker has_master_key popen user_id with
  | Ok _ =>
      (ui', mkMasterState d' (referral_codes st) (referral_users st)
              (<[user_id := mkReferralRow 0 false]> (user_referrals st)),
       [ReplyText (live_msg clone_username instructions')], [])
  | Raise e =>
      (ui', mkMasterState d' (referral_codes st) (referral_users st) (user_referrals st),
       [ReplyText start_failed_msg], ["Error starting cloned bot: " ++ exc_str e])
  end.

Definition no_instructions_msg : string :=
  "You haven't set any custom instructions yet.👀" ++ nl ++ nl
  ++ "Example: /set_instructions You are a helpful assistant who is irresistible to DEATH".

(** [set_instructions] of the master bot, on [context.args] = [args];
    the instructions live in the module dict [user_instructions]. *)
Definition set_instructions (user_id : Z) (args : list string)
    (user_instructions : gmap Z string) : gmap Z string * list outgoing :=
  match args with
  | _ :: _ =>
      let instructions' := Worker.join " " args in
      (<[user_id := instructions']> user_instructions,
       [ReplyText ("✅ Custom instructions set! Your AI will now follow these guidelines:"
                   ++ nl ++ nl ++ "⚡" ++ instructions' ++ "⚡" ++ nl ++ nl
                   ++ "Use /clear_instructions to remove them.")])
  | [] =>
      match user_instructions !! user_id with
      | Some current =>
          if truthy current then
            (user_instructions,
             [ReplyText ("📝 Your current instructions:" ++ nl ++ nl ++ current ++ nl ++ nl
                         ++ "To change: /set_instructions [your new instructions]")])
          else (user_instructions, [ReplyText no_instructions_msg])
      | None => (user_instructions, [ReplyText no_instructions_msg])
      end
  end.

(** [clear_instructions] of the master bot. *)
Definition clear_instructions (user_id : Z) (user_instructions : gmap Z string)
    : gmap Z string * list outgoing :=
  match user_instructions !! user_id with
  | Some _ => (delete user_id user_instructions,
               [ReplyText "✅ Custom instructions successfully erased!"])
  | None => (user_instructions, [ReplyText "You don't have any custom instructions set.🥲"])
  end.

End MasterCmds.
End MasterCmds.

(* ------------------------------------------------------------------ *)
(** ** [bot.py]: key pool, [chat], [/start] and the [/clone] conversation *)

Module MasterBot.
Import Vault Master.

(** [str.lower()] on the bytes of the UTF-8 encoding: ASCII capitals
    become small letters, other bytes stay.  No character outside ASCII
    lowers to one of the letters of ["quota"], so the quota test below
    is the same on either string. *)
Definition ascii_lower (c : ascii) : ascii :=
  let n := nat_of_ascii c in
  if ((65 <=? n) && (n <=? 90))%nat then ascii_of_nat (n + 32) else c.

Fixpoint str_lower (s : string) : string :=
  match s with
  | EmptyString => EmptyString
  | String c rest => String (ascii_lower c) (str_lower rest)
  end.

Section MasterBot.
Context `{F : Fernet}.
(** [GEMINI_API_KEYS] of the master process. *)
Context (GEMINI_API_KEYS : list string).
(** The outcome of [genai.configure(api_key=k)] followed by
    [genai.GenerativeModel("gemini-1.5-flash")] for key [k]. *)
Context (configure : string -> result unit).
(** The Python recursion depth still available to [configure_gemini]. *)
Context (recursion_limit : nat).

(** [configure_gemini] of [bot.py]: after a failure it moves to the next
    key when there are several, and re-raises the error when there is
    one.  Only [logger.error] lines are traced. *)
Fixpoint configure_gemini_aux (fuel : nat) : PyM unit :=
  fun g =>
    match fuel with
    | O => (g, [], Raise RecursionError)
    | S fuel' =>
        let attempt :=
          match nth_error GEMINI_API_KEYS (current_key_index g) with
          | None => Raise (RuntimeError "list index out of range")
          | Some k => match configure k with Ok _ => Ok k | Raise e => Raise e end
          end in
        match attempt with
        | Ok k => (mkGlobals (current_key_index g) (Some k), [], Ok tt)
        | Raise e =>
            let log := EvLog ("Failed to configure Gemini: " ++ exc_str e) in
            if (1 <? List.length GEMINI_API_KEYS)%nat then
              let '(g', t, r) :=
                configure_gemini_aux fuel'
                  (mkGlobals (S (current_key_index g) mod List.length GEMINI_API_KEYS)
                     (model g)) in
              (g', log :: t, r)
            else (g, [log], Raise e)
        end
    end.

Definition configure_gemini : PyM unit := configure_gemini_aux recursion_limit.

(** [switch_key].  The modulo by [len(GEMINI_API_KEYS)] raises on an
    empty pool (which the module's import check rules out). *)
Definition switch_key : PyM unit :=
  fun g =>
    match GEMINI_API_KEYS with
    | [] => (g, [], Raise (RuntimeError "integer division or modulo by zero"))
    | _ =>
        configure_gemini
          (mkGlobals (S (current_key_index g) mod List.length GEMINI_API_KEYS) (model g))
    end.

Definition not_configured_msg : string :=
  "⚠️ Bot is not properly configured. Please contact the administrator.".
Definition quota_msg : string :=
  "⚠️ Quota exceeded, switching API key... Please try again.".
Definition error_msg : string :=
  "⚠️ Sorry, I encountered an error processing your request.".

Definition watermark_msg (remaining : Z) : string :=
  nl ++ nl ++ "┈┈┈┈┈┈┈┈┈┈┈┈┈┈┈" ++ nl ++ "🔹 Cloned by @daxotp_bot" ++ nl
  ++ "📊 " ++ z_str remaining ++ " referrals needed to remove".

(** The test of the [except] branch of [chat]. *)
Definition is_quota_error (msg : string) : bool :=
  str_contains "429" msg || str_contains "quota" (str_lower msg).

(** [getattr(resp, "text", str(resp))]. *)
Definition response_text (r : gen_response) : string :=
  match resp_text r with
  | Some t => t
  | None => resp_str r
  end.

(** [chat] of the master bot, on the message [message_text] of
    [user_id]; [user_instructions] is the module dict.  The handler reads
    the state and writes only the key pool's globals. *)
Definition chat (master : string) (generate : string -> string -> result gen_response)
    (user_id : Z) (message_text : option string) (user_instructions : gmap Z string)
    (st : master_state) : PyM unit :=
  g ← py_get;
  match model g with
  | None => reply not_configured_msg
  | Some _ =>
      let user_message := default "" message_text in
      py_try
        (let instructions := default "" (user_instructions !! user_id) in
         let enhanced_prompt :=
           if truthy instructions then instructions ++ nl ++ nl ++ "User: " ++ user_message
           else user_message in
         resp ← Worker.generate_content generate enhanced_prompt;
         let response_text' := response_text resp in
         cs ← py_lift (list_active_clones master (m_db st));
         let needs_watermark :=
           bool_decide (user_id ∈ map cd_user_id cs) &&
           match user_referrals st !! user_id with
           | Some r => negb (verified r)
           | None => true
           end in
         let remaining :=
           5 - match user_referrals st !! user_id with Some r => count r | None => 0 end in
         reply (if needs_watermark then response_text' ++ watermark_msg remaining
                else response_text'))
        (fun e =>
           if is_quota_error (exc_str e) then
             switch_key;; reply quota_msg
           else
             py_emit (EvLog ("Error: " ++ exc_str e));; reply error_msg)
  end.

End MasterBot.

Definition share_nag_msg (remaining : Z) : string :=
  "📣 Share with " ++ z_str remaining ++ " more people to remove the watermark!" ++ nl ++ nl
  ++ "Use /share to get your referral link and instructions.".

Definition hello_msg : string :=
  "🤖 Hello! I'm your AI bot (GPT-powered). Send me a message!" ++ nl ++ nl
  ++ "Use /clone to create your own AI bot with your own custom instructions!".

Section MasterStart.
Context `{F : Fernet}.

(** [start] of the master bot, with [context.args] = [args];
    [threshold] is [REFERRAL_THRESHOLD], used by [handle_referral]. *)
Definition start (threshold : Z) (user_id : Z) (username : option string)
    (args : list string) (st : master_state) : master_state * list outgoing :=
  let username' :=
    match username with
    | Some u => if truthy u then u else "user_" ++ z_str user_id
    | None => "user_" ++ z_str user_id
    end in
  let greet :=
    match user_referrals st !! user_id with
    | Some r => if verified r then (st, [ReplyText hello_msg])
                else (st, [ReplyText (share_nag_msg (5 - count r))])
    | None => (st, [ReplyText hello_msg])
    end in
  match args with
  | referral_code :: _ =>
      if String.prefix "ref_" referral_code
      then handle_referral threshold referral_code user_id username' st
      else greet
  | [] => greet
  end.

End MasterStart.

(** The states of the [/clone] conversation. *)
Inductive conv_state := ASK_TOKEN | ASK_INSTRUCTIONS.

(** The outcome of [Bot(token=...).get_me()]: the bot's username, the
    [Forbidden] error, or another error. *)
Inductive get_me_result :=
| GetMeOk (username : string)
| GetMeForbidden
| GetMeFailed (e : exc).

(** The keys of [context.user_data] the conversation uses. *)
Record user_data := mkUserData {
  clone_token : option string;
  clone_username : option string
}.

Definition clone_msg : string :=
  "🚀 Let's create your AI bot!" ++ nl ++ nl
  ++ "1. First, send me your Telegram bot token (from @BotFather)" ++ nl
  ++ "2. Then, I'll ask for your custom instructions" ++ nl ++ nl
  ++ "Send your bot token now or /cancel to abort.".

(** [clone]: the reply and the next state. *)
Definition clone : list outgoing * conv_state := ([ReplyText clone_msg], ASK_TOKEN).

Definition token_valid_msg (username : string) : string :=
  "✅ Token valid! Your bot @" ++ username ++ " will be created." ++ nl ++ nl
  ++ "Now send me your custom instructions for the AI:".

Definition invalid_token_msg : string :=
  "❌ Invalid token. Please send a valid bot token or /cancel.".

Definition token_error_msg : string :=
  "❌ Error validating token. Please try again or /cancel.".

(** [receive_token]: the token is stored in [user_data] before it is
    validated.  Returns the new [user_data], the replies, the error log
    and the next state. *)
Definition receive_token (get_me : string -> get_me_result) (text : string)
    (ud : user_data) : user_data * list outgoing * list string * conv_state :=
  let user_token := Worker.strip text in
  let ud' := mkUserData (Some user_token) (clone_username ud) in
  match get_me user_token with
  | GetMeOk u =>
      (mkUserData (Some user_token) (Some u), [ReplyText (token_valid_msg u)], [],
       ASK_INSTRUCTIONS)
  | GetMeForbidden => (ud', [ReplyText invalid_token_msg], [], ASK_TOKEN)
  | GetMeFailed e =>
      (ud', [ReplyText token_error_msg], ["Error validating token: " ++ exc_str e], ASK_TOKEN)
  end.

(** [cancel]: the reply; the conversation ends. *)
Definition cancel : list outgoing := [ReplyText "Operation cancelled❌."].

(** An update of one user: a text message that is not a command, or a
    command with its arguments. *)
Inductive update :=
| UText (text : string)
| UCommand (name : string) (args : list string).

Section Conversation.
Context `{F : Fernet}.

(** What the conversation of one user reads and writes: the module dict
    [user_instructions], the master state, [context.user_data] and the
    conversation state ([None] outside the conversation). *)
Record bot_state := mkBotState {
  b_ui : gmap Z string;
  b_st : master_state;
  b_ud : user_data;
  b_conv : option conv_state
}.

(** The [ConversationHandler] of [main], for the updates of [user_id] in
    a private chat: entry point [/clone] outside the conversation, the
    handler of the current state on text messages, the fallback
    [/cancel] inside it.  [None] when it does not handle the update;
    [Raise] when the handler raises, which leaves the state as it was. *)
Definition conv_handler (master : string) (iv : Z) (has_master_key : bool)
    (popen : Z -> result Z) (get_me : string -> get_me_result) (user_id : Z)
    (u : update) (s : bot_state)
    : option (result (bot_state * list outgoing * list string)) :=
  match b_conv s, u with
  | None, UCommand name _ =>
      if String.eqb name "clone" then
        let '(out, next) := clone in
        Some (Ok (mkBotState (b_ui s) (b_st s) (b_ud s) (Some next), out, []))
      else None
  | Some _, UCommand name _ =>
      if String.eqb name "cancel" then
        Some (Ok (mkBotState (b_ui s) (b_st s) (b_ud s) None, cancel, []))
      else None
  | Some ASK_TOKEN, UText t =>
      let '(ud', out, logs, next) := receive_token get_me t (b_ud s) in
      Some (Ok (mkBotState (b_ui s) (b_st s) ud' (Some next), out, logs))
  | Some ASK_INSTRUCTIONS, UText t =>
      match clone_token (b_ud s), clone_username (b_ud s) with
      | Some tok, Some bu =>
          let '(ui', st', out, logs) :=
            MasterCmds.receive_instructions master iv has_master_key popen user_id t tok bu
              (b_ui s) (b_st s) in
          Some (Ok (mkBotState ui' st' (b_ud s) None, out, logs))
      | None, _ => Some (Raise (RuntimeError "'clone_token'"))
      | _, None => Some (Raise (RuntimeError "'clone_username'"))
      end
  | None, UText _ => None
  end.

(** A run of updates that the conversation handler all handles without
    raising; [None] as soon as one is not handled or raises. *)
Fixpoint run_conv (master : string) (iv : Z) (has_master_key : bool)
    (popen : Z -> result Z) (get_me : string -> get_me_result) (user_id : Z)
    (us : list update) (s : bot_state) : option (bot_state * list outgoing * list string) :=
  match us with
  | [] => Some (s, [], [])
  | u :: rest =>
      match conv_handler master iv has_master_key popen get_me user_id u s with
      | Some (Ok (s', out, logs)) =>
          match run_conv master iv has_master_key popen get_me user_id rest s' with
          | Some (s'', out', logs') => Some (s'', app out out', app logs logs')
          | None => None
          end
      | _ => None
      end
  end.

End Conversation.
End MasterBot.

(* ------------------------------------------------------------------ *)
(** ** A concrete cipher for concrete runs

    Authenticated by the key: a token decrypts only under the key it
    was made with, as Fernet's HMAC check does. *)
Definition keyed_fernet : Fernet := {|
  fernet_token := string * Z * string;
  fernet_encrypt := fun key iv p => (key, iv, p);
  fernet_decrypt := fun key c =>
    let '(k, _, p) := c in if String.eqb key k then Some p else None
|}.

(** A vault holding, for owner 7, a token encrypted under a foreign key. *)
Definition foreign_key_db : @Vault.db keyed_fernet :=
  Vault.mkDb {[7 := Vault.mkCloneRow (F:=keyed_fernet) "my_bot" ("other-key", 0, "123:abc")
                      "You are terse." true]} ∅.

(** A master bot whose only referral code, ["ref_1_a1b2c3d4"], belongs
    to user 1, with nothing recorded yet. *)
Definition fresh_master : @Master.master_state keyed_fernet :=
  Master.mkMasterState (Vault.mkDb ∅ ∅) {["ref_1_a1b2c3d4" := 1]} ∅ ∅.

(** A referrer with 4 counted joins; the 5th join reaches the
    threshold. *)
Definition four_referrals_master : @Master.master_state keyed_fernet :=
  Master.mkMasterState (Vault.mkDb ∅ {[1 := Vault.mkReferralRow 4 false]})
    {["ref_1_a1b2c3d4" := 1]} ∅ ∅.

(** An empty vault. *)
Definition empty_db : @Vault.db keyed_fernet := Vault.mkDb ∅ ∅.

(** A vault with the clone of owner 7: token ["123:abc"] under the
    master key ["mk"], display name ["my_bot"], instructions [instr];
    no referral rows. *)
Definition owner_db (instr : string) : @Vault.db keyed_fernet :=
  Vault.mkDb {[7 := Vault.mkCloneRow (F:=keyed_fernet) "my_bot" ("mk", 0, "123:abc")
                      instr true]} ∅.

(** A vault with two active clones, owners 10 and 20; the token of
    owner 10 was encrypted under another key when [corrupt] is set. *)
Definition two_clone_db (corrupt : bool) : @Vault.db keyed_fernet :=
  Vault.mkDb {[10 := Vault.mkCloneRow (F:=keyed_fernet) "bot_a"
                       (if corrupt then "old-key" else "mk", 0, "10:aaa") "" true;
               20 := Vault.mkCloneRow (F:=keyed_fernet) "bot_b" ("mk", 1, "20:bbb") "" true]} ∅.

(** The worker's key pool in the concrete runs. *)
Definition three_keys : list string := ["k1"; "k2"; "k3"].

(** The vault of [owner_db] whose owner has 3 persisted referrals, or 5
    and verified, and a master that has just been restarted on it (its
    in-memory dicts are empty). *)
Definition referred_owner_db (cnt : Z) (verified' : bool) : @Vault.db keyed_fernet :=
  Vault.mkDb (Vault.clones (owner_db "You are terse."))
    {[7 := Vault.mkReferralRow cnt verified']}.

Definition restarted_master (cnt : Z) (verified' : bool) : @Master.master_state keyed_fernet :=
  Master.mkMasterState (referred_owner_db cnt verified') ∅ ∅ ∅.

(** A Telegram check that accepts only the token ["123:abc"], of bot
    [my_bot]. *)
Definition get_me_demo (token : string) : MasterBot.get_me_result :=
  if String.eqb token "123:abc" then MasterBot.GetMeOk "my_bot" else MasterBot.GetMeForbidden.

(** A user outside any conversation, with a fresh master. *)
Definition idle_user : @MasterBot.bot_state keyed_fernet :=
  MasterBot.mkBotState ∅ (Master.mkMasterState empty_db ∅ ∅ ∅)
    (MasterBot.mkUserData None None) None.

(** Case analysis on the integer comparisons of a goal. *)
Ltac zbool :=
  repeat match goal with
         | |- context [Z.leb ?a ?b] => destruct (Z.leb_spec a b)
         | |- context [Z.eqb ?a ?b] => destruct (Z.eqb_spec a b)
         end; simpl; try reflexivity; try lia.

(* ================================================================== *)
(** * Properties *)

Section VaultProps.
Import Vault.
Context `{F : Fernet}.

(** Claim C1: with a cipher whose decryption inverts encryption under
    the same key, [get_clone] after [save_clone] returns the saved
    plaintext token, display name and instructions, with [active]
    true. *)
Theorem save_clone_get_clone_roundtrip
    (Hdec : forall key iv p, fernet_decrypt key (fernet_encrypt key iv p) = Some p)
    (master : string) (iv user_id : Z) (token_plain name instr : string) (d : db) :
  get_clone master user_id (save_clone master iv user_id token_plain name instr d)
  = Ok (Some (mkCloneDict user_id name token_plain instr true)).
Proof.
  unfold get_clone, save_clone; simpl.
  rewrite lookup_insert_eq; simpl.
  rewrite Hdec. reflexivity.
Qed.

(** Claim C9: when the stored ciphertext of [user_id] does not decrypt
    under [master], [get_clone] raises the decryption error
    ([RuntimeError("Failed to decrypt token: ...")], the spec's
    DecryptionFailed); and any record it does return carries exactly the
    decryption of the stored ciphertext. *)
Theorem get_clone_decryption_failure (master : string) (user_id : Z) (d : db)
    (row : clone_row)
    (Hrow : clones d !! user_id = Some row) :
  (fernet_decrypt master (token_encrypted row) = None ->
   get_clone master user_id d = Raise (RuntimeError decrypt_failed_msg)) /\
  (forall c, get_clone master user_id d = Ok (Some c) ->
   fernet_decrypt master (token_encrypted row) = Some (cd_token c)).
Proof.
  unfold get_clone; rewrite Hrow. split.
  - intros Hnone. rewrite Hnone. reflexivity.
  - intros c. destruct (fernet_decrypt master (token_encrypted row)) eqn:E;
      intros H; inversion H; subst; reflexivity.
Qed.

End VaultProps.

(** Claim C10: with an empty key pool, [rotate_gemini_key] returns
    normally and leaves [current_key_index] and [model] unchanged. *)
Theorem rotate_gemini_key_empty_pool (configure_ok : string -> bool)
    (recursion_limit : nat) (g : globals) :
  Worker.rotate_gemini_key [] configure_ok recursion_limit g = (g, [], Ok tt).
Proof. reflexivity. Qed.

(** Witnesses. *)
Lemma save_clone_get_clone_roundtrip_witness :
  @Vault.get_clone keyed_fernet "mk" 7
     (Vault.save_clone "mk" 1 7 "123:abc" "my_bot" "You are terse."
        (Vault.mkDb ∅ ∅))
  = Ok (Some (Vault.mkCloneDict 7 "my_bot" "123:abc" "You are terse." true)).
Proof.
  apply (@save_clone_get_clone_roundtrip keyed_fernet).
  intros key iv p. simpl. rewrite String.eqb_refl. reflexivity.
Defined.

Lemma get_clone_decryption_failure_witness :
  @Vault.get_clone keyed_fernet "mk" 7 foreign_key_db
  = Raise (RuntimeError Vault.decrypt_failed_msg).
Proof.
  apply (proj1 (@get_clone_decryption_failure keyed_fernet "mk" 7 foreign_key_db
                  (Vault.mkCloneRow (F:=keyed_fernet) "my_bot" ("other-key", 0, "123:abc")
                     "You are terse." true) eq_refl)).
  reflexivity.
Defined.

Section ReferralProps.
Import Vault Master.
Context `{F : Fernet}.

Lemma ensure_referral_row_lookup (uid u : Z) (d : db) :
  referrals (ensure_referral_row uid d) !! u
  = if decide (u = uid)
    then Some (default (mkReferralRow 0 false) (referrals d !! uid))
    else referrals d !! u.
Proof.
  unfold ensure_referral_row.
  destruct (referrals d !! uid) eqn:E; simpl;
    destruct (decide (u = uid)); subst; simpl;
    rewrite ?lookup_insert_eq, ?lookup_insert_ne; auto.
Qed.

Lemma bump_count_lookup (uid u : Z) (d : db) (r : referral_row) :
  referrals d !! uid = Some r ->
  referrals (bump_count uid d) !! u
  = if decide (u = uid) then Some (mkReferralRow (count r + 1) (verified r))
    else referrals d !! u.
Proof.
  intros E. unfold bump_count. rewrite E. simpl.
  destruct (decide (u = uid)); subst;
    rewrite ?lookup_insert_eq, ?lookup_insert_ne; auto.
Qed.

Lemma mark_verified_lookup (uid u : Z) (d : db) (r : referral_row) :
  referrals d !! uid = Some r ->
  referrals (mark_verified uid d) !! u
  = if decide (u = uid) then Some (mkReferralRow (count r) true)
    else referrals d !! u.
Proof.
  intros E. unfold mark_verified. rewrite E. simpl.
  destruct (decide (u = uid)); subst;
    rewrite ?lookup_insert_eq, ?lookup_insert_ne; auto.
Qed.

Lemma ensure_bump_clones (uid : Z) (d : db) :
  clones (bump_count uid (ensure_referral_row uid d)) = clones d.
Proof.
  unfold bump_count, ensure_referral_row.
  destruct (referrals d !! uid); simpl; [|rewrite lookup_insert_eq];
    [destruct (referrals d !! uid)|]; reflexivity.
Qed.

(** [increment_referral] adds one to the stored count (an absent row
    counting as 0) and ORs the threshold test into the stored flag. *)
Lemma increment_referral_spec (t uid : Z) (d : db) :
  let r0 := default (mkReferralRow 0 false) (referrals d !! uid) in
  (forall u, referrals (fst (increment_referral t uid d)) !! u
     = if decide (u = uid)
       then Some (mkReferralRow (count r0 + 1) (verified r0 || (t <=? count r0 + 1)))
       else referrals d !! u) /\
  snd (increment_referral t uid d)
    = mkReferralDict uid (count r0 + 1) (verified r0 || (t <=? count r0 + 1)) /\
  clones (fst (increment_referral t uid d)) = clones d.
Proof.
  intros r0.
  assert (E1 : referrals (ensure_referral_row uid d) !! uid = Some r0).
  { rewrite ensure_referral_row_lookup, decide_True; reflexivity. }
  assert (E2 : forall u, referrals (bump_count uid (ensure_referral_row uid d)) !! u
     = if decide (u = uid) then Some (mkReferralRow (count r0 + 1) (verified r0))
       else referrals d !! u).
  { intros u. rewrite (bump_count_lookup _ _ _ _ E1).
    destruct (decide (u = uid)); [reflexivity|].
    rewrite ensure_referral_row_lookup, decide_False; auto. }
  pose proof (E2 uid) as E3. rewrite decide_True in E3 by reflexivity.
  unfold increment_referral. rewrite E3. simpl.
  destruct (verified r0) eqn:Ev; simpl.
  - split; [|split; [reflexivity | apply ensure_bump_clones]].
    intros u. rewrite E2. destruct (decide (u = uid)); reflexivity.
  - destruct (t <=? count r0 + 1) eqn:Et; simpl.
    + split; [|split; [reflexivity|]].
      * intros u. rewrite (mark_verified_lookup _ _ _ _ E3).
        destruct (decide (u = uid)); [reflexivity|].
        rewrite E2, decide_False; auto.
      * unfold mark_verified. rewrite E3. apply ensure_bump_clones.
    + split; [|split; [reflexivity | apply ensure_bump_clones]].
      intros u. rewrite E2. destruct (decide (u = uid)); reflexivity.
Qed.

Lemma referral_count_default (uid : Z) (d : db) :
  referral_count uid d = count (default (mkReferralRow 0 false) (referrals d !! uid)).
Proof.
  unfold referral_count, get_referral. destruct (referrals d !! uid); reflexivity.
Qed.

(** Claim C2: for a valid referral code of [referrer] and a joiner not
    yet in [referral_users], processing the join twice raises the
    persisted count of [referrer] by exactly one: the first call adds
    one, and the second call changes no state at all. *)
Theorem handle_referral_counts_joiner_once (threshold : Z) (code : string)
    (referrer joiner : Z) (name1 name2 : string) (st : master_state)
    (Hcode : referral_codes st !! code = Some referrer)
    (Hnew : referral_users st !! joiner = None) :
  let st1 := fst (handle_referral threshold code joiner name1 st) in
  let st2 := fst (handle_referral threshold code joiner name2 st1) in
  referral_count referrer (m_db st2) = referral_count referrer (m_db st) + 1 /\
  st2 = st1.
Proof.
  cbv zeta. unfold handle_referral. rewrite Hcode, Hnew.
  pose proof (increment_referral_spec threshold referrer (m_db st)) as [Hl _].
  destruct (increment_referral threshold referrer (m_db st)) as [d' r] eqn:Ei.
  simpl in Hl |- *. rewrite Hcode, lookup_insert_eq. simpl.
  split; [|reflexivity].
  rewrite !referral_count_default, Hl, decide_True by reflexivity. reflexivity.
Qed.

Lemma increments_lookup (t uid : Z) (n : nat) (d : db) :
  referrals d !! uid = None ->
  referrals (increments t uid n d) !! uid
  = match n with
    | O => None
    | S _ => Some (mkReferralRow (Z.of_nat n) (t <=? Z.of_nat n))
    end.
Proof.
  intros Hnone. induction n as [|n IH]; [exact Hnone|].
  change (increments t uid (S n) d)
    with (fst (increment_referral t uid (increments t uid n d))).
  pose proof (increment_referral_spec t uid (increments t uid n d)) as [Hl _].
  rewrite Hl, decide_True by reflexivity. rewrite IH.
  destruct n as [|n]; [reflexivity|].
  cbn [default id count verified orb].
  rewrite (Nat2Z.inj_succ (S n)). unfold Z.succ.
  destruct (Z.leb_spec t (Z.of_nat (S n))), (Z.leb_spec t (Z.of_nat (S n) + 1));
    simpl; try reflexivity; lia.
Qed.

(** Claim C3, as the code behaves: with threshold 5 and no referral row
    for [uid], after [n] calls of [increment_referral] the row reads
    [(n, n >= 5)] (no row at all for [n = 0]); call [n+1] returns
    [count = n+1] and [verified = (n+1 >= 5)], so every call from the
    5th on returns [verified = true]; the stored flag goes from false to
    true on the 5th call and on no other. *)
Theorem increment_referral_threshold_five (uid : Z) (d : db)
    (Hnone : referrals d !! uid = None) :
  (forall n : nat,
   get_referral uid (increments 5 uid n d)
   = match n with
     | O => None
     | S _ => Some (mkReferralDict uid (Z.of_nat n) (5 <=? Z.of_nat n))
     end) /\
  (forall n : nat,
   snd (increment_referral 5 uid (increments 5 uid n d))
   = mkReferralDict uid (Z.of_nat n + 1) (5 <=? Z.of_nat n + 1)) /\
  (forall n : nat,
   negb (referral_verified uid (increments 5 uid n d))
   && referral_verified uid (increments 5 uid (S n) d)
   = (Z.of_nat n + 1 =? 5)).
Proof.
  split; [|split]; intros n.
  - unfold get_referral. rewrite (increments_lookup _ _ _ _ Hnone).
    destruct n; reflexivity.
  - pose proof (increment_referral_spec 5 uid (increments 5 uid n d)) as [_ [Hr _]].
    rewrite Hr, (increments_lookup _ _ _ _ Hnone).
    destruct n as [|n]; [reflexivity|].
    cbn [default id count verified]. f_equal. zbool.
  - unfold referral_verified, get_referral.
    rewrite !(increments_lookup _ _ _ _ Hnone).
    destruct n as [|n]; [reflexivity|].
    cbn [verified rd_verified]. rewrite (Nat2Z.inj_succ (S n)). unfold Z.succ.
    zbool.
Qed.

End ReferralProps.

(** Counterexample to claim C3: [increment_referral] returns
    [verified=true] on the 5th call, which crosses the threshold, and
    again on the 6th call, made when the stored flag is already true. *)
Lemma increment_referral_verified_after_crossing :
  Vault.rd_verified (snd (Vault.increment_referral 5 7 (Vault.increments 5 7 4 empty_db))) = true /\
  Vault.referral_verified 7 (Vault.increments 5 7 5 empty_db) = true /\
  Vault.rd_verified (snd (Vault.increment_referral 5 7 (Vault.increments 5 7 5 empty_db))) = true.
Proof. split; [|split]; reflexivity. Qed.

Lemma handle_referral_counts_joiner_once_witness :
  let st1 := fst (Master.handle_referral 5 "ref_1_a1b2c3d4" 42 "alice" fresh_master) in
  let st2 := fst (Master.handle_referral 5 "ref_1_a1b2c3d4" 42 "alice" st1) in
  Vault.referral_count 1 (Master.m_db st2) = Vault.referral_count 1 (Master.m_db fresh_master) + 1 /\
  st2 = st1.
Proof.
  exact (@handle_referral_counts_joiner_once keyed_fernet 5 "ref_1_a1b2c3d4" 1 42
           "alice" "alice" fresh_master eq_refl eq_refl).
Defined.

Lemma increment_referral_threshold_five_witness :
  Vault.get_referral 7 (Vault.increments 5 7 5 empty_db)
  = Some (Vault.mkReferralDict 7 5 true).
Proof.
  apply (proj1 (@increment_referral_threshold_five keyed_fernet 7 empty_db eq_refl) 5%nat).
Defined.

Section WorkerProps.
Import Vault Worker.
Context `{F : Fernet}.
Context (owner : Z) (keys : list string) (master : string) (threshold : Z)
        (configure_ok : string -> bool) (fuel : nat).

Ltac run_py :=
  unfold chat_handler, mbind, py_mbind, py_bind, py_lift, py_get, mret, py_mret,
    py_ret, reply, py_emit, py_try, generate_content, check_and_exit_if_bot_dead,
    py_raise.

(** [configure_gemini] and [rotate_gemini_key] emit no event. *)
Lemma configure_gemini_aux_silent (ks : list string) (n : nat) (g : globals) :
  (configure_gemini_aux ks configure_ok n g).1.2 = [].
Proof.
  revert g. induction n as [|n IH]; intros g; simpl;
    destruct ks; simpl; try reflexivity.
  destruct (nth_error _ _); simpl; [destruct (configure_ok _); simpl; [reflexivity|]|];
  (destruct (1 <? _)%nat; [apply IH|reflexivity]).
Qed.

Lemma rotate_gemini_key_silent (g : globals) :
  (rotate_gemini_key keys configure_ok fuel g).1.2 = [].
Proof.
  unfold rotate_gemini_key, configure_gemini. destruct keys; [reflexivity|].
  apply configure_gemini_aux_silent.
Qed.

(** The run of [chat_handler] once the clone record is loaded and the
    token passed the liveness probe: the three paths of the handler. *)
Lemma chat_handler_paths (alive : string -> bool)
    (generate : string -> string -> result gen_response)
    (d : db) (msg : option string) (g : globals) (clone : option clone_dict)
    (Hget : get_clone master owner d = Ok clone)
    (Halive : forall c, clone = Some c -> truthy (cd_token c) = true ->
              alive (cd_token c) = true) :
  let instr := match clone with Some c => cd_instructions c | None => "" end in
  let ut := default "" msg in
  chat_handler owner keys master threshold configure_ok fuel alive generate d msg g
  = match model g with
    | None => (g, [EvReply (with_watermark owner threshold d (echo_response instr ut))], Ok tt)
    | Some k =>
        match generate k (build_prompt instr ut) with
        | Ok resp =>
            (g, [EvGenerate k (build_prompt instr ut);
                 EvReply (with_watermark owner threshold d (response_text resp))], Ok tt)
        | Raise e =>
            let '(g', tr, r) :=
              if is_quota_error (exc_str e) then
                match rotate_gemini_key keys configure_ok fuel g with
                | (g1, t1, Ok _) => (g1, app t1 [EvReply rotation_notice], Ok tt)
                | (g1, t1, Raise e') => (g1, t1, Raise e')
                end
              else (g, [EvReply generic_failure_notice], Ok tt) in
            (g', EvGenerate k (build_prompt instr ut)
                   :: EvLog ("Gemini API error: " ++ exc_str e) :: tr, r)
        end
    end.
Proof.
  intros instr ut.
  destruct (model g) as [k|] eqn:Em;
    [destruct (generate k (build_prompt instr ut)) as [resp|e] eqn:Eg;
      [|destruct (is_quota_error (exc_str e)) eqn:Eq;
        [destruct (rotate_gemini_key keys configure_ok fuel g) as [[g1 t1] [[]|e']] eqn:Er|]]|];
  run_py; rewrite Hget; subst instr ut; destruct clone as [c|];
  cbn -[rotate_gemini_key with_watermark build_prompt echo_response response_text is_quota_error exc_str];
  try (destruct (truthy (cd_token c)) eqn:Et; [rewrite (Halive c eq_refl Et)|]);
  repeat (cbn -[rotate_gemini_key with_watermark build_prompt echo_response response_text is_quota_error exc_str]; rewrite ?Em, ?Eg, ?Eq, ?Er);
  cbn -[with_watermark build_prompt echo_response response_text is_quota_error exc_str]; rewrite ?app_nil_r; reflexivity.
Qed.

Lemma chat_handler_trace_no_exit (alive : string -> bool)
    (generate : string -> string -> result gen_response)
    (d : db) (msg : option string) (g : globals) :
  (forall clone, get_clone master owner d = Ok clone ->
   exists c, clone = Some c /\ truthy (cd_token c) = true /\ alive (cd_token c) = false) \/
  (exists e, get_clone master owner d = Raise e) ->
  (chat_handler owner keys master threshold configure_ok fuel alive generate d msg g).1.2 = [].
Proof.
  intros [H|[e H]].
  - destruct (get_clone master owner d) as [clone|e] eqn:Hget.
    + destruct (H clone eq_refl) as [c [-> [Et Ea]]].
      run_py. rewrite Hget. cbn -[truthy]. rewrite Et, Ea. reflexivity.
    + run_py. rewrite Hget. reflexivity.
  - run_py. rewrite H. reflexivity.
Qed.

(** Claim C4, as the code behaves: the watermark decision reads only
    the referral row of the owner ([CLONE_USER_ID]; the handler never
    looks at the sender) and appends the watermark exactly when that row
    is absent or has [verified] false; the reply of the no-model path
    and of a successful generation is the text passed through that
    decision; after a failed generation the only possible replies are
    the rotation notice and the failure notice, with no watermark. *)
Theorem chat_handler_watermark (alive : string -> bool)
    (generate : string -> string -> result gen_response)
    (d : db) (msg : option string) (g : globals) (clone : option clone_dict)
    (Hget : get_clone master owner d = Ok clone)
    (Halive : forall c, clone = Some c -> truthy (cd_token c) = true ->
              alive (cd_token c) = true) :
  let instr := match clone with Some c => cd_instructions c | None => "" end in
  let ut := default "" msg in
  let run := chat_handler owner keys master threshold configure_ok fuel alive generate d msg g in
  (forall base : string,
   with_watermark owner threshold d base
   = match referrals d !! owner with
     | Some r => if verified r then base
                 else base ++ watermark (Z.max 0 (threshold - count r))
     | None => base ++ watermark (Z.max 0 threshold)
     end) /\
  (model g = None ->
   run = (g, [EvReply (with_watermark owner threshold d (echo_response instr ut))], Ok tt)) /\
  (forall k resp, model g = Some k -> generate k (build_prompt instr ut) = Ok resp ->
   run = (g, [EvGenerate k (build_prompt instr ut);
              EvReply (with_watermark owner threshold d (response_text resp))], Ok tt)) /\
  (forall k e text, model g = Some k -> generate k (build_prompt instr ut) = Raise e ->
   In (EvReply text) run.1.2 ->
   text = rotation_notice \/ text = generic_failure_notice).
Proof.
  intros instr ut run. subst run.
  rewrite (chat_handler_paths alive generate d msg g clone Hget Halive).
  split; [|split; [|split]].
  - intros base. unfold with_watermark, owner_remaining_referrals, get_referral.
    destruct (referrals d !! owner) as [r|]; [reflexivity|].
    rewrite Z.sub_0_r. reflexivity.
  - intros Hm. rewrite Hm. reflexivity.
  - intros k resp Hm Hg. rewrite Hm. fold instr ut. rewrite Hg. reflexivity.
  - intros k e text Hm Hg Hin. rewrite Hm in Hin. fold instr ut in Hin. rewrite Hg in Hin.
    destruct (is_quota_error (exc_str e)).
    + pose proof (rotate_gemini_key_silent g) as Hs.
      destruct (rotate_gemini_key keys configure_ok fuel g) as [[g1 t1] [r1|e1]];
        simpl in Hs; subst t1; simpl in Hin; intuition congruence.
    + simpl in Hin. intuition congruence.
Qed.

(** Claim C5: every prompt the handler passes to the generator is the
    clone's current instructions [s], then ["\n\nUser: "], then the
    message text [t] when [s] is non-empty, and [t] itself when [s] is
    empty (no record counting as empty instructions). *)
Theorem chat_handler_prompt (alive : string -> bool)
    (generate : string -> string -> result gen_response)
    (d : db) (msg : option string) (g : globals) (k p : string)
    (Hin : In (EvGenerate k p)
              (chat_handler owner keys master threshold configure_ok fuel
                 alive generate d msg g).1.2) :
  let s := match get_clone master owner d with Ok (Some c) => cd_instructions c | _ => "" end in
  let t := default "" msg in
  p = (if String.eqb s "" then t else s ++ nl ++ nl ++ "User: " ++ t).
Proof.
  intros s t.
  assert (Hp : p = build_prompt s t).
  { destruct (get_clone master owner d) as [clone|e] eqn:Hget.
    - assert (Hcase : (forall c, clone = Some c -> truthy (cd_token c) = true ->
                       alive (cd_token c) = true) \/
                      (exists c, clone = Some c /\ truthy (cd_token c) = true /\
                                 alive (cd_token c) = false)).
      { destruct clone as [c|]; [|left; discriminate].
        destruct (truthy (cd_token c)) eqn:Et; [|left; intros c' [= <-]; congruence].
        destruct (alive (cd_token c)) eqn:Ea; [left; intros c' [= <-]; auto|].
        right. eauto. }
      destruct Hcase as [Halive|Hdead].
      + rewrite (chat_handler_paths alive generate d msg g clone Hget Halive) in Hin.
        unfold s, t.
        pose proof (rotate_gemini_key_silent g) as Hs.
        destruct (model g) as [k'|]; simpl in Hin;
          [|destruct Hin as [H|[]]; discriminate].
        destruct (generate _ _) as [resp|e]; simpl in Hin.
        * destruct Hin as [H|[H|[]]]; [|discriminate].
          injection H as _ Hp; rewrite <- Hp; reflexivity.
        * destruct (is_quota_error (exc_str e));
            [destruct (rotate_gemini_key keys configure_ok fuel g) as [[g1 t1] [r1|e1]];
             simpl in Hs; subst t1|];
            simpl in Hin; (destruct Hin as [H|Hin];
              [injection H as _ Hp; rewrite <- Hp; reflexivity|]);
            repeat (destruct Hin as [Hin|Hin]; [discriminate|]); contradiction.
      + rewrite chat_handler_trace_no_exit in Hin; [contradiction|].
        left. intros clone' Hc. rewrite Hget in Hc. injection Hc as <-. exact Hdead.
    - rewrite chat_handler_trace_no_exit in Hin; [contradiction|]. right. eauto. }
  rewrite Hp. unfold build_prompt. destruct s; reflexivity.
Qed.

(** [rotate_gemini_key] moves to the next index when the key there
    configures. *)
Lemma rotate_gemini_key_next (g : globals)
    (Hkeys : keys <> []) (Hfuel : fuel <> 0%nat)
    (Hcfg : configure_ok (nth (S (current_key_index g) mod List.length keys) keys "") = true) :
  rotate_gemini_key keys configure_ok fuel g
  = (mkGlobals (S (current_key_index g) mod List.length keys)
       (Some (nth (S (current_key_index g) mod List.length keys) keys "")), [], Ok tt).
Proof.
  unfold rotate_gemini_key, configure_gemini.
  destruct keys as [|k0 ks]; [congruence|].
  destruct fuel as [|f]; [congruence|].
  cbn [configure_gemini_aux current_key_index].
  rewrite nth_error_nth' with (d := "")
    by (apply Nat.mod_upper_bound; simpl; lia).
  rewrite Hcfg. reflexivity.
Qed.

(** Claim C7, as the code behaves: on a generation error whose text
    contains "429", "quota" or "rate", the handler made exactly one
    generation call (no retry), then calls [rotate_gemini_key] once and,
    when that returns, replies with the rotation notice; the key index is
    the one [rotate_gemini_key] leaves, which is [(i + 1) mod n] whenever
    the key at that index configures (otherwise [configure_gemini]'s
    fallback moves on to later keys). *)
Theorem chat_handler_quota_rotation (alive : string -> bool)
    (generate : string -> string -> result gen_response)
    (d : db) (msg : option string) (g : globals) (clone : option clone_dict)
    (Hget : get_clone master owner d = Ok clone)
    (Halive : forall c, clone = Some c -> truthy (cd_token c) = true ->
              alive (cd_token c) = true)
    (k : string) (e : exc) (Hm : model g = Some k)
    (Hg : generate k (build_prompt (match clone with Some c => cd_instructions c | None => "" end)
                                   (default "" msg)) = Raise e)
    (Hq : is_quota_error (exc_str e) = true) :
  let prompt := build_prompt (match clone with Some c => cd_instructions c | None => "" end)
                             (default "" msg) in
  let next := (S (current_key_index g) mod List.length keys)%nat in
  let run := chat_handler owner keys master threshold configure_ok fuel alive generate d msg g in
  run = (let '(g1, _, r) := rotate_gemini_key keys configure_ok fuel g in
         (g1, EvGenerate k prompt :: EvLog ("Gemini API error: " ++ exc_str e)
                :: match r with Ok _ => [EvReply rotation_notice] | Raise _ => [] end,
          match r with Ok _ => Ok tt | Raise e' => Raise e' end)) /\
  (keys <> [] -> fuel <> 0%nat -> configure_ok (nth next keys "") = true ->
   run = (mkGlobals next (Some (nth next keys "")),
          [EvGenerate k prompt; EvLog ("Gemini API error: " ++ exc_str e);
           EvReply rotation_notice], Ok tt)).
Proof.
  intros prompt next run. subst run.
  rewrite (chat_handler_paths alive generate d msg g clone Hget Halive), Hm, Hg, Hq.
  split.
  - pose proof (rotate_gemini_key_silent g) as Hs.
    destruct (rotate_gemini_key keys configure_ok fuel g) as [[g1 t1] [r1|e1]];
      simpl in Hs; subst t1; reflexivity.
  - intros Hk Hf Hc. rewrite (rotate_gemini_key_next g Hk Hf Hc). reflexivity.
Qed.

End WorkerProps.

Section StartupProps.
Import Vault Master.
Context `{F : Fernet}.

Lemma collect_clones_ok (master : string) (uids : list Z) (d : db)
    (Hall : Forall (fun uid => exists row tok, clones d !! uid = Some row /\
                      fernet_decrypt master (token_encrypted row) = Some tok) uids) :
  exists cs, collect_clones master uids d = Ok cs /\ map cd_user_id cs = uids.
Proof.
  induction Hall as [|uid rest [row [tok [Hrow Htok]]] _ IH]; [exists []; split; reflexivity|].
  destruct IH as [cs [Hcs Hids]].
  exists (mkCloneDict uid (bot_username row) tok (instructions row) (active row) :: cs).
  simpl. unfold get_clone. rewrite Hrow, Htok, Hcs. split; [reflexivity|].
  simpl. rewrite Hids. reflexivity.
Qed.

Lemma spawn_all_spec (has_master_key : bool) (popen : Z -> result Z)
    (cs : list clone_dict) :
  spawn_all has_master_key popen cs
  = (map cd_user_id cs,
     flat_map (fun uid => match spawn_clone_worker has_master_key popen uid with
                          | Ok _ => []
                          | Raise e => ["Failed to spawn worker for " ++ z_str uid ++ ": " ++ exc_str e]
                          end) (map cd_user_id cs)).
Proof.
  induction cs as [|c cs IH]; [reflexivity|].
  simpl. rewrite IH.
  destruct (spawn_clone_worker has_master_key popen (cd_user_id c)); reflexivity.
Qed.

Lemma active_ids_spec (d : db) (uid : Z) :
  uid ∈ active_ids d <-> exists row, clones d !! uid = Some row /\ active row = true.
Proof.
  unfold active_ids. rewrite (merge_sort_Permutation Z.le _), list_elem_of_fmap. split.
  - intros [[k row] [-> Hin]]. rewrite elem_of_map_to_list, map_lookup_filter_Some in Hin.
    exists row. exact Hin.
  - intros [row Hrow]. exists (uid, row). split; [reflexivity|].
    rewrite elem_of_map_to_list, map_lookup_filter_Some. exact Hrow.
Qed.

Lemma active_ids_NoDup (d : db) : NoDup (active_ids d).
Proof.
  unfold active_ids. rewrite (merge_sort_Permutation Z.le _). apply NoDup_fst_map_to_list.
Qed.

Lemma active_ids_sorted (d : db) : Sorted Z.le (active_ids d).
Proof. unfold active_ids. apply Sorted_merge_sort. apply _. Qed.

Lemma get_clone_raises (master : string) (uid : Z) (d : db) (e : exc) :
  get_clone master uid d = Raise e -> e = RuntimeError decrypt_failed_msg.
Proof.
  unfold get_clone. destruct (clones d !! uid) as [row|]; [|discriminate].
  destruct (fernet_decrypt _ _); [discriminate|]. congruence.
Qed.

(** The loop of [list_active_clones] raises the decryption error as soon
    as one of the selected ids has a row that does not decrypt. *)
Lemma collect_clones_undecryptable (master : string) (uids : list Z) (d : db)
    (uid : Z) (row : clone_row) :
  uid ∈ uids -> clones d !! uid = Some row ->
  fernet_decrypt master (token_encrypted row) = None ->
  collect_clones master uids d = Raise (RuntimeError decrypt_failed_msg).
Proof.
  intros Hin Hrow Hdec. induction uids as [|a rest IH]; [inversion Hin|].
  simpl. apply elem_of_cons in Hin. destruct Hin as [->|Hin].
  - unfold get_clone. rewrite Hrow, Hdec. reflexivity.
  - destruct (get_clone master a d) as [c|e] eqn:Hg.
    + rewrite (IH Hin). reflexivity.
    + rewrite (get_clone_raises _ _ _ _ Hg). reflexivity.
Qed.

(** Claim C8, as the code behaves.  When every active record decrypts
    under the master key (so that [list_active_clones] returns), startup
    calls [spawn_clone_worker] exactly once for each active record (the
    ids called are the active ids, without repetition), whatever the
    spawn outcomes; every failing spawn adds one error line to the log
    and the loop goes on.  When some active record does not decrypt,
    [list_active_clones] raises: one error line is logged and no spawn
    is attempted at all, for the readable records either. *)
Theorem reconcile_spawns_each_active_record (master : string)
    (has_master_key : bool) (popen : Z -> result Z) (d : db) :
  let '(attempts, logs) := reconcile_on_startup master has_master_key popen d in
  ((forall uid row, clones d !! uid = Some row -> active row = true ->
      is_Some (fernet_decrypt master (token_encrypted row))) ->
   attempts = active_ids d /\
   NoDup attempts /\
   (forall uid, uid ∈ attempts <-> exists row, clones d !! uid = Some row /\ active row = true) /\
   logs = flat_map (fun uid => match spawn_clone_worker has_master_key popen uid with
                               | Ok _ => []
                               | Raise e => ["Failed to spawn worker for " ++ z_str uid ++ ": " ++ exc_str e]
                               end) attempts) /\
  ((exists uid row, clones d !! uid = Some row /\ active row = true /\
                    fernet_decrypt master (token_encrypted row) = None) ->
   attempts = [] /\
   logs = ["Failed to load active clones from DB: " ++ decrypt_failed_msg]).
Proof.
  destruct (reconcile_on_startup master has_master_key popen d) as [attempts logs] eqn:Hrec.
  split.
  - intros Hdec.
    assert (Hall : Forall (fun uid => exists row tok, clones d !! uid = Some row /\
                     fernet_decrypt master (token_encrypted row) = Some tok) (active_ids d)).
    { apply Forall_forall. intros uid Hin.
      rewrite active_ids_spec in Hin. destruct Hin as [row [Hrow Hact]].
      destruct (Hdec uid row Hrow Hact) as [tok Htok]. eauto. }
    destruct (collect_clones_ok master (active_ids d) d Hall) as [cs [Hcs Hids]].
    unfold reconcile_on_startup, list_active_clones in Hrec.
    rewrite Hcs, spawn_all_spec, Hids in Hrec. injection Hrec as <- <-.
    split; [reflexivity|]. split; [apply active_ids_NoDup|].
    split; [apply active_ids_spec|reflexivity].
  - intros [uid [row [Hrow [Hact Hdec]]]].
    assert (Hin : uid ∈ active_ids d) by (apply active_ids_spec; eauto).
    unfold reconcile_on_startup, list_active_clones in Hrec.
    rewrite (collect_clones_undecryptable master _ d uid row Hin Hrow Hdec) in Hrec.
    injection Hrec as <- <-. split; reflexivity.
Qed.

End StartupProps.

(** Counterexample to claim C4: the owner 7 has no referral row
    (verified false), a model is configured and generation fails with a
    non-quota error; the reply is the failure notice, without the
    watermark. *)
Lemma chat_reply_unwatermarked_on_generation_error :
  Worker.owner_remaining_referrals 7 5 (owner_db "You are terse.") = (5, false) /\
  Worker.chat_handler 7 three_keys "mk" 5 (fun _ => true) 10 (fun _ => true)
    (fun _ _ => Raise (GenerationError "500 Internal Server Error"))
    (owner_db "You are terse.") (Some "hi") (mkGlobals 0 (Some "k1"))
  = (mkGlobals 0 (Some "k1"),
     [EvGenerate "k1" ("You are terse." ++ nl ++ nl ++ "User: hi");
      EvLog "Gemini API error: 500 Internal Server Error";
      EvReply generic_failure_notice], Ok tt) /\
  str_contains (Worker.watermark 5) generic_failure_notice = false.
Proof. split; [|split]; reflexivity. Qed.

Lemma chat_handler_watermark_witness :
  Worker.chat_handler 7 three_keys "mk" 5 (fun _ => true) 10 (fun _ => true)
    (fun _ _ => Raise (GenerationError "unused"))
    (owner_db "You are terse.") (Some "hi") (mkGlobals 0 None)
  = (mkGlobals 0 None,
     [EvReply (Worker.with_watermark 7 5 (owner_db "You are terse.")
                 (Worker.echo_response "You are terse." "hi"))], Ok tt).
Proof.
  apply (proj1 (proj2 (@chat_handler_watermark keyed_fernet 7 three_keys "mk" 5
    (fun _ => true) 10 (fun _ => true) (fun _ _ => Raise (GenerationError "unused"))
    (owner_db "You are terse.") (Some "hi") (mkGlobals 0 None)
    (Some (Vault.mkCloneDict 7 "my_bot" "123:abc" "You are terse." true))
    eq_refl (fun _ _ _ => eq_refl)))).
  reflexivity.
Defined.

Lemma chat_handler_prompt_witness :
  In (EvGenerate "k1" ("You are terse." ++ nl ++ nl ++ "User: hi"))
     (Worker.chat_handler 7 three_keys "mk" 5 (fun _ => true) 10 (fun _ => true)
        (fun _ _ => Ok (mkGenResponse (Some "Hi.") "Hi."))
        (owner_db "You are terse.") (Some "hi") (mkGlobals 0 (Some "k1"))).1.2 /\
  "You are terse." ++ nl ++ nl ++ "User: hi"
  = (if String.eqb "You are terse." "" then "hi"
     else "You are terse." ++ nl ++ nl ++ "User: hi").
Proof.
  assert (Hin : In (EvGenerate "k1" ("You are terse." ++ nl ++ nl ++ "User: hi"))
     (Worker.chat_handler 7 three_keys "mk" 5 (fun _ => true) 10 (fun _ => true)
        (fun _ _ => Ok (mkGenResponse (Some "Hi.") "Hi."))
        (owner_db "You are terse.") (Some "hi") (mkGlobals 0 (Some "k1"))).1.2).
  { vm_compute. left. reflexivity. }
  split; [exact Hin|].
  exact (@chat_handler_prompt keyed_fernet 7 three_keys "mk" 5 (fun _ => true) 10
           (fun _ => true) (fun _ _ => Ok (mkGenResponse (Some "Hi.") "Hi."))
           (owner_db "You are terse.") (Some "hi") (mkGlobals 0 (Some "k1")) "k1" _ Hin).
Defined.

(** Claim C6 (defect): the owner 7 sends [/set_instructions You are
    terse.]; [set_instructions] passes five arguments to the
    four-parameter [save_clone], the [TypeError] is caught, the owner is
    told the save failed and the stored instructions stay as they were,
    while the same [save_clone] with four arguments (as [bot.py]'s
    [receive_instructions] calls it) stores them. *)
Lemma set_instructions_owner_save_fails :
  Worker.set_instructions 7 "mk" 3 7 ["You"; "are"; "terse."] (owner_db "Be helpful.")
    (mkGlobals 0 (Some "k1"))
  = (mkGlobals 0 (Some "k1"),
     [EvLog "Failed saving instructions: save_clone() takes 4 positional arguments";
      EvReply "❌ Failed to save instructions."], Ok (owner_db "Be helpful.")) /\
  Vault.get_clone "mk" 7 (owner_db "Be helpful.")
  = Ok (Some (Vault.mkCloneDict 7 "my_bot" "123:abc" "Be helpful." true)) /\
  option_map (fun d => Vault.get_clone "mk" 7 d)
    (match Vault.call_save_clone "mk" 3
             [PyInt 7; PyStr "123:abc"; PyStr "my_bot"; PyStr "You are terse."]
             (owner_db "Be helpful.") with Ok d => Some d | Raise _ => None end)
  = Some (Ok (Some (Vault.mkCloneDict 7 "my_bot" "123:abc" "You are terse." true))).
Proof. split; [|split]; reflexivity. Qed.

(** Counterexample to claim C7: three keys, index 0, the key ["k2"] fails
    to configure; after a quota error the index is 2, not 1. *)
Lemma quota_rotation_skips_unconfigurable_key :
  Worker.chat_handler 7 three_keys "mk" 5 (fun k => negb (String.eqb k "k2")) 10
    (fun _ => true) (fun _ _ => Raise (GenerationError "429 Quota exceeded"))
    (owner_db "You are terse.") (Some "hi") (mkGlobals 0 (Some "k1"))
  = (mkGlobals 2 (Some "k3"),
     [EvGenerate "k1" ("You are terse." ++ nl ++ nl ++ "User: hi");
      EvLog "Gemini API error: 429 Quota exceeded";
      EvReply rotation_notice], Ok tt).
Proof. reflexivity. Qed.

Lemma chat_handler_quota_rotation_witness :
  Worker.chat_handler 7 three_keys "mk" 5 (fun _ => true) 10
    (fun _ => true) (fun _ _ => Raise (GenerationError "429 Quota exceeded"))
    (owner_db "You are terse.") (Some "hi") (mkGlobals 0 (Some "k1"))
  = (mkGlobals 1 (Some "k2"),
     [EvGenerate "k1" ("You are terse." ++ nl ++ nl ++ "User: hi");
      EvLog "Gemini API error: 429 Quota exceeded";
      EvReply rotation_notice], Ok tt).
Proof.
  apply (proj2 (@chat_handler_quota_rotation keyed_fernet 7 three_keys "mk" 5
    (fun _ => true) 10 (fun _ => true) (fun _ _ => Raise (GenerationError "429 Quota exceeded"))
    (owner_db "You are terse.") (Some "hi") (mkGlobals 0 (Some "k1"))
    (Some (Vault.mkCloneDict 7 "my_bot" "123:abc" "You are terse." true))
    eq_refl (fun _ _ _ => eq_refl) "k1" (GenerationError "429 Quota exceeded")
    eq_refl eq_refl eq_refl)).
  - discriminate.
  - discriminate.
  - reflexivity.
Defined.

(** Counterexample to claim C8: two active records, 10 and 20, the
    token of 10 encrypted under another key; [list_active_clones] raises
    on record 10, so no spawn is attempted, for 20 either. *)
Lemma reconcile_undecryptable_record_blocks_all :
  List.length (Vault.active_ids (two_clone_db true)) = 2%nat /\
  Master.reconcile_on_startup "mk" true (fun uid => Ok (1000 + uid)) (two_clone_db true)
  = ([], ["Failed to load active clones from DB: " ++ Vault.decrypt_failed_msg]).
Proof. split; reflexivity. Qed.

Lemma reconcile_spawns_each_active_record_witness :
  (let '(attempts, logs) :=
     Master.reconcile_on_startup "mk" true
       (fun uid => if uid =? 10 then Raise (RuntimeError "[Errno 12] Cannot allocate memory")
                   else Ok (1000 + uid))
       (two_clone_db false) in
   attempts = Vault.active_ids (two_clone_db false) /\
   NoDup attempts /\
   (forall uid, uid ∈ attempts <->
      exists row, Vault.clones (two_clone_db false) !! uid = Some row /\ Vault.active row = true) /\
   logs = flat_map (fun uid =>
            match Master.spawn_clone_worker true
                    (fun uid => if uid =? 10 then Raise (RuntimeError "[Errno 12] Cannot allocate memory")
                                else Ok (1000 + uid)) uid with
            | Ok _ => []
            | Raise e => ["Failed to spawn worker for " ++ z_str uid ++ ": " ++ exc_str e]
            end) attempts) /\
  (let '(attempts, logs) :=
     Master.reconcile_on_startup "mk" true (fun uid => Ok (1000 + uid)) (two_clone_db true) in
   attempts = [] /\
   logs = ["Failed to load active clones from DB: " ++ Vault.decrypt_failed_msg]).
Proof.
  split.
  - pose proof (@reconcile_spawns_each_active_record keyed_fernet "mk" true
      (fun uid => if uid =? 10 then Raise (RuntimeError "[Errno 12] Cannot allocate memory")
                  else Ok (1000 + uid)) (two_clone_db false)) as H.
    destruct (Master.reconcile_on_startup _ _ _ _) as [attempts logs].
    apply (proj1 H).
    intros uid row Hrow _. unfold two_clone_db in Hrow. simpl in Hrow.
    rewrite lookup_insert_Some, lookup_singleton_Some in Hrow.
    destruct Hrow as [[<- <-]|[_ [<- <-]]]; eexists; reflexivity.
  - pose proof (@reconcile_spawns_each_active_record keyed_fernet "mk" true
      (fun uid => Ok (1000 + uid)) (two_clone_db true)) as H.
    destruct (Master.reconcile_on_startup _ _ _ _) as [attempts logs].
    apply (proj2 H). exists 10, (Vault.mkCloneRow (F:=keyed_fernet) "bot_a" ("old-key", 0, "10:aaa") "" true).
    split; [|split; reflexivity]. unfold two_clone_db. simpl.
    apply lookup_insert_eq.
Defined.

(* ================================================================== *)
(** * Further properties of the vault *)

Section VaultMore.
Import Vault.
Context `{F : Fernet}.

(** The loop of [list_active_clones] over ids that all have a row:
    it stops at the first undecryptable row, otherwise it returns one
    dict per id, each the one [get_clone] gives. *)
Lemma collect_clones_cases (master : string) (uids : list Z) (d : db)
    (Hrows : Forall (fun uid => exists row, clones d !! uid = Some row) uids) :
  match collect_clones master uids d with
  | Raise e => e = RuntimeError decrypt_failed_msg /\
               exists uid row, uid ∈ uids /\ clones d !! uid = Some row /\
                               fernet_decrypt master (token_encrypted row) = None
  | Ok cs => map cd_user_id cs = uids /\
             Forall (fun c => get_clone master (cd_user_id c) d = Ok (Some c)) cs
  end.
Proof.
  induction Hrows as [|uid rest [row Hrow] _ IH]; [split; constructor|].
  simpl. unfold get_clone at 1. rewrite Hrow.
  destruct (fernet_decrypt master (token_encrypted row)) as [tok|] eqn:Htok.
  - destruct (collect_clones master rest d) as [cs|e].
    + destruct IH as [Hids Hall]. simpl. rewrite Hids. split; [reflexivity|].
      constructor; [|exact Hall]. cbn [cd_user_id]. unfold get_clone. rewrite Hrow, Htok. reflexivity.
    + destruct IH as [He [u [r [Hin Hr]]]]. split; [exact He|].
      exists u, r. split; [apply list_elem_of_further; exact Hin|exact Hr].
  - split; [reflexivity|]. exists uid, row. split; [apply list_elem_of_here|]. auto.
Qed.

(** [list_active_clones] either raises the decryption error, and then
    some active record does not decrypt under the master key, or returns
    one dict per active record, in ascending id order without
    repetition, each equal to what [get_clone] returns for its id and
    flagged active. *)
Theorem list_active_clones_cases (master : string) (d : db) :
  match list_active_clones master d with
  | Raise e => e = RuntimeError decrypt_failed_msg /\
               exists uid row, clones d !! uid = Some row /\ active row = true /\
                               fernet_decrypt master (token_encrypted row) = None
  | Ok cs => map cd_user_id cs = active_ids d /\
             Sorted Z.le (map cd_user_id cs) /\ NoDup (map cd_user_id cs) /\
             Forall (fun c => get_clone master (cd_user_id c) d = Ok (Some c) /\
                              cd_active c = true) cs
  end.
Proof.
  assert (Hrows : Forall (fun uid => exists row, clones d !! uid = Some row) (active_ids d)).
  { apply Forall_forall. intros uid Hin. apply active_ids_spec in Hin.
    destruct Hin as [row [Hrow _]]. eauto. }
  pose proof (collect_clones_cases master (active_ids d) d Hrows) as H.
  unfold list_active_clones.
  destruct (collect_clones master (active_ids d) d) as [cs|e].
  - destruct H as [Hids Hall]. split; [exact Hids|].
    rewrite Hids. split; [apply active_ids_sorted|]. split; [apply active_ids_NoDup|].
    apply Forall_forall. intros c Hc.
    pose proof (proj1 (Forall_forall _ _) Hall c Hc) as Hg. split; [exact Hg|].
    assert (Hin : cd_user_id c ∈ active_ids d).
    { rewrite <- Hids. apply list_elem_of_fmap. eauto. }
    apply active_ids_spec in Hin. destruct Hin as [row [Hrow Hact]].
    unfold get_clone in Hg. rewrite Hrow in Hg.
    destruct (fernet_decrypt _ _); [|discriminate].
    injection Hg as <-. exact Hact.
  - destruct H as [He [uid [row [Hin [Hrow Hdec]]]]]. split; [exact He|].
    apply active_ids_spec in Hin. destruct Hin as [row' [Hrow' Hact]].
    rewrite Hrow in Hrow'. injection Hrow' as <-. eauto.
Qed.

(** [deactivate_clone] keeps the record of [uid] with every field but
    [active], which becomes false, so that [uid] is no longer among the
    active ids (and is not respawned); no other row of either table
    changes, and a missing record stays missing. *)
Theorem deactivate_clone_spec (master : string) (uid : Z) (d : db) :
  get_clone master uid (deactivate_clone uid d)
  = match get_clone master uid d with
    | Ok (Some c) => Ok (Some (mkCloneDict (cd_user_id c) (cd_bot_username c) (cd_token c)
                                 (cd_instructions c) false))
    | r => r
    end /\
  (uid ∉ active_ids (deactivate_clone uid d)) /\
  (forall u, u <> uid -> clones (deactivate_clone uid d) !! u = clones d !! u) /\
  referrals (deactivate_clone uid d) = referrals d.
Proof.
  unfold deactivate_clone, get_clone.
  destruct (clones d !! uid) as [r|] eqn:E; simpl.
  - rewrite lookup_insert_eq. simpl.
    split; [destruct (fernet_decrypt _ _); reflexivity|].
    split; [|split; [intros u Hu; rewrite lookup_insert_ne by congruence; reflexivity|reflexivity]].
    rewrite active_ids_spec. intros [row [Hrow Hact]].
    simpl in Hrow. rewrite lookup_insert_eq in Hrow. injection Hrow as <-. discriminate.
  - rewrite E. split; [reflexivity|]. split; [|auto].
    rewrite active_ids_spec. intros [row [Hrow _]]. congruence.
Qed.

(** [save_clone] is an upsert on [uid] alone: afterwards [uid] is among
    the active ids (a deactivated clone is reactivated), no other clone
    row and no referral row changes, and a second save of the same id
    leaves no trace of the first, nor of a [deactivate_clone] in
    between. *)
Theorem save_clone_upsert (master : string) (iv iv' uid : Z)
    (tok bu ins tok' bu' ins' : string) (d : db) :
  let d1 := save_clone master iv uid tok bu ins d in
  uid ∈ active_ids d1 /\
  (forall u, u <> uid -> clones d1 !! u = clones d !! u) /\
  referrals d1 = referrals d /\
  save_clone master iv' uid tok' bu' ins' d1 = save_clone master iv' uid tok' bu' ins' d /\
  save_clone master iv' uid tok' bu' ins' (deactivate_clone uid d)
  = save_clone master iv' uid tok' bu' ins' d.
Proof.
  intros d1. subst d1. unfold save_clone. simpl.
  split; [|split; [|split; [reflexivity|split]]].
  - rewrite active_ids_spec. simpl. rewrite lookup_insert_eq. eauto.
  - intros u Hu. rewrite lookup_insert_ne by congruence. reflexivity.
  - rewrite insert_insert_eq. reflexivity.
  - unfold deactivate_clone. destruct (clones d !! uid); simpl; [|reflexivity].
    rewrite insert_insert_eq. reflexivity.
Qed.

Lemma ensure_referral_row_clones (uid : Z) (d : db) :
  clones (ensure_referral_row uid d) = clones d.
Proof. unfold ensure_referral_row. destruct (referrals d !! uid); reflexivity. Qed.

(** [set_referral_count] stores [count] and recomputes [verified] as
    [count >= REFERRAL_THRESHOLD], whatever the row held before (an
    already verified user set below the threshold becomes unverified);
    no other row changes. *)
Theorem set_referral_count_spec (t uid c : Z) (d : db) :
  get_referral uid (set_referral_count t uid c d) = Some (mkReferralDict uid c (t <=? c)) /\
  (forall u, u <> uid -> referrals (set_referral_count t uid c d) !! u = referrals d !! u) /\
  clones (set_referral_count t uid c d) = clones d.
Proof.
  unfold set_referral_count.
  rewrite (ensure_referral_row_lookup uid uid d), decide_True by reflexivity. simpl.
  split; [|split].
  - unfold get_referral. simpl. rewrite lookup_insert_eq. reflexivity.
  - intros u Hu. simpl. rewrite lookup_insert_ne by congruence.
    rewrite ensure_referral_row_lookup, decide_False by exact Hu. reflexivity.
  - apply ensure_referral_row_clones.
Qed.

(** [set_referral_verified] stores the given flag and keeps the count
    (0 for a new row); no other row changes. *)
Theorem set_referral_verified_spec (uid : Z) (v : bool) (d : db) :
  get_referral uid (set_referral_verified uid v d)
  = Some (mkReferralDict uid (referral_count uid d) v) /\
  (forall u, u <> uid -> referrals (set_referral_verified uid v d) !! u = referrals d !! u) /\
  clones (set_referral_verified uid v d) = clones d.
Proof.
  unfold set_referral_verified.
  rewrite (ensure_referral_row_lookup uid uid d), decide_True by reflexivity. simpl.
  split; [|split].
  - unfold get_referral. simpl. rewrite lookup_insert_eq, referral_count_default. reflexivity.
  - intros u Hu. simpl. rewrite lookup_insert_ne by congruence.
    rewrite ensure_referral_row_lookup, decide_False by exact Hu. reflexivity.
  - apply ensure_referral_row_clones.
Qed.

(** On any database (also one whose rows were set by
    [set_referral_count] or [set_referral_verified]),
    [increment_referral] returns exactly the row it leaves stored; the
    count grows by one (an absent row counting as 0), the flag becomes
    [old flag || count >= threshold], so a verified user is never
    unverified by it; no other row of either table changes. *)
Theorem increment_referral_returns_stored_row (t uid : Z) (d : db) :
  let '(d', ret) := increment_referral t uid d in
  get_referral uid d' = Some ret /\
  rd_user_id ret = uid /\
  rd_count ret = referral_count uid d + 1 /\
  rd_verified ret = referral_verified uid d || (t <=? rd_count ret) /\
  (forall u, u <> uid -> referrals d' !! u = referrals d !! u) /\
  clones d' = clones d.
Proof.
  pose proof (increment_referral_spec t uid d) as [Hl [Hr Hc]].
  destruct (increment_referral t uid d) as [d' ret]. simpl in Hl, Hr, Hc.
  subst ret. rewrite referral_count_default.
  assert (Hv : referral_verified uid d
               = verified (default (mkReferralRow 0 false) (referrals d !! uid))).
  { unfold referral_verified, get_referral. destruct (referrals d !! uid); reflexivity. }
  rewrite Hv. split; [|split; [reflexivity|split; [reflexivity|split; [reflexivity|split]]]].
  - unfold get_referral. rewrite Hl, decide_True by reflexivity. reflexivity.
  - intros u Hu. rewrite Hl, decide_False by exact Hu. reflexivity.
  - exact Hc.
Qed.

(** [list_active_clones] reads the clones table only. *)
Lemma list_active_clones_referrals (master : string) (d : db)
    (refs : gmap Z referral_row) :
  list_active_clones master (mkDb (clones d) refs) = list_active_clones master d.
Proof.
  unfold list_active_clones, active_ids. cbn [clones].
  generalize (merge_sort Z.le (map_to_list (filter (fun kv => active kv.2 = true) (clones d))).*1)
    as uids.
  induction uids as [|uid rest IH]; [reflexivity|].
  simpl. rewrite IH. reflexivity.
Qed.

End VaultMore.

(* ================================================================== *)
(** * Further properties of the worker *)

Section KeyPool.
Import Worker.
Context (keys : list string) (configure_ok : string -> bool).

Lemma configure_gemini_aux_zero (g : globals) (Hk : keys <> []) :
  configure_gemini_aux keys configure_ok 0 g = (g, [], Raise RecursionError).
Proof. destruct keys; [congruence|reflexivity]. Qed.

Lemma configure_gemini_aux_step (f : nat) (g : globals) (Hk : keys <> []) :
  configure_gemini_aux keys configure_ok (S f) g
  = match match nth_error keys (current_key_index g) with
          | Some k => if configure_ok k then Some k else None
          | None => None
          end with
    | Some k => (mkGlobals (current_key_index g) (Some k), [], Ok tt)
    | None =>
        if (1 <? List.length keys)%nat then
          configure_gemini_aux keys configure_ok f
            (mkGlobals (S (current_key_index g) mod List.length keys) (model g))
        else (mkGlobals (current_key_index g) None, [], Ok tt)
    end.
Proof. destruct keys; [congruence|reflexivity]. Qed.

Lemma keys_nonempty (i : nat) (Hi : (i < List.length keys)%nat) : keys <> [].
Proof. intros ->. simpl in Hi. lia. Qed.

Lemma nth_error_in_range (i : nat) (Hi : (i < List.length keys)%nat) :
  nth_error keys i = Some (nth i keys "").
Proof. apply nth_error_nth'. exact Hi. Qed.

Lemma succ_mod_shift (i j : nat) (Hn : List.length keys <> 0%nat) :
  ((S i mod List.length keys + j) mod List.length keys
   = (i + S j) mod List.length keys)%nat.
Proof. rewrite Nat.Div0.add_mod_idemp_l. f_equal. lia. Qed.

(** When the key at the current index and all later ones (cyclically)
    fail up to offset [j], and the key at offset [j] configures,
    [configure_gemini] settles on that key: the index is
    [(i + j) mod n] and the model is built with that key; it needs
    recursion depth for [j + 1] calls. *)
Theorem configure_gemini_first_configurable_key (fuel j : nat) (g : globals)
    (Hidx : (current_key_index g < List.length keys)%nat)
    (Hj : (j < List.length keys)%nat)
    (Hgood : configure_ok (nth ((current_key_index g + j) mod List.length keys) keys "") = true)
    (Hbad : forall j', (j' < j)%nat ->
            configure_ok (nth ((current_key_index g + j') mod List.length keys) keys "") = false)
    (Hfuel : (j < fuel)%nat) :
  configure_gemini_aux keys configure_ok fuel g
  = (mkGlobals ((current_key_index g + j) mod List.length keys)
       (Some (nth ((current_key_index g + j) mod List.length keys) keys "")), [], Ok tt).
Proof.
  revert g fuel Hidx Hgood Hbad Hfuel.
  induction j as [|j IH]; intros [i m] fuel Hidx Hgood Hbad Hfuel; cbn [current_key_index model] in *.
  - destruct fuel as [|f]; [lia|].
    rewrite configure_gemini_aux_step by (eapply keys_nonempty; eauto). simpl.
    rewrite ?Nat.add_0_r in Hgood |- *. rewrite (Nat.mod_small i _ Hidx) in Hgood |- *.
    rewrite nth_error_in_range by exact Hidx. rewrite Hgood. reflexivity.
  - destruct fuel as [|f]; [lia|].
    assert (Hn : List.length keys <> 0%nat) by lia.
    rewrite configure_gemini_aux_step by (eapply keys_nonempty; eauto). simpl.
    rewrite nth_error_in_range by exact Hidx.
    pose proof (Hbad 0%nat ltac:(lia)) as H0.
    rewrite Nat.add_0_r, Nat.mod_small in H0 by exact Hidx. rewrite H0.
    replace (1 <? List.length keys)%nat with true by (symmetry; apply Nat.ltb_lt; lia).
    rewrite <- succ_mod_shift by exact Hn.
    apply (IH ltac:(lia) (mkGlobals (S i mod List.length keys) m) f); simpl.
    + apply Nat.mod_upper_bound. exact Hn.
    + rewrite succ_mod_shift by exact Hn. exact Hgood.
    + intros j' Hj'. rewrite succ_mod_shift by exact Hn. apply Hbad. lia.
    + lia.
Qed.

Lemma configure_gemini_aux_all_fail (fuel : nat) (g : globals)
    (Hfail : Forall (fun k => configure_ok k = false) keys)
    (Hmany : (1 < List.length keys)%nat)
    (Hidx : (current_key_index g < List.length keys)%nat) :
  configure_gemini_aux keys configure_ok fuel g
  = (mkGlobals ((current_key_index g + fuel) mod List.length keys) (model g), [],
     Raise RecursionError).
Proof.
  assert (Hn : List.length keys <> 0%nat) by lia.
  revert g Hidx. induction fuel as [|f IH]; intros [i m] Hidx; cbn [current_key_index model] in *.
  - rewrite configure_gemini_aux_zero by (eapply keys_nonempty; eauto).
    rewrite ?Nat.add_0_r, (Nat.mod_small i _ Hidx). reflexivity.
  - rewrite configure_gemini_aux_step by (eapply keys_nonempty; eauto). simpl.
    rewrite nth_error_in_range by exact Hidx.
    rewrite (proj1 (List.Forall_forall _ _) Hfail _ (nth_In _ "" Hidx)).
    replace (1 <? List.length keys)%nat with true by (symmetry; apply Nat.ltb_lt; lia).
    rewrite IH by (simpl; apply Nat.mod_upper_bound; exact Hn). simpl.
    rewrite succ_mod_shift by exact Hn. reflexivity.
Qed.

(** With more than one key and no key that configures,
    [configure_gemini] never stops by itself: it recurses until the
    recursion limit, whatever it is, and raises [RecursionError], having
    advanced the index once per call and left [model] as it was. *)
Theorem configure_gemini_all_keys_fail (fuel : nat) (g : globals)
    (Hfail : Forall (fun k => configure_ok k = false) keys)
    (Hmany : (1 < List.length keys)%nat)
    (Hidx : (current_key_index g < List.length keys)%nat) :
  configure_gemini_aux keys configure_ok fuel g
  = (mkGlobals ((current_key_index g + fuel) mod List.length keys) (model g), [],
     Raise RecursionError).
Proof. exact (configure_gemini_aux_all_fail fuel g Hfail Hmany Hidx). Qed.

Lemma configure_gemini_aux_in_range (fuel : nat) (g : globals)
    (Hidx : (current_key_index g < List.length keys)%nat) :
  let '(g', _, r) := configure_gemini_aux keys configure_ok fuel g in
  (current_key_index g' < List.length keys)%nat /\
  r <> Raise (RuntimeError "list index out of range").
Proof.
  revert g Hidx. induction fuel as [|f IH]; intros [i m] Hidx; cbn [current_key_index model] in *.
  - rewrite configure_gemini_aux_zero by (eapply keys_nonempty; eauto).
    split; [exact Hidx|discriminate].
  - rewrite configure_gemini_aux_step by (eapply keys_nonempty; eauto). simpl.
    rewrite nth_error_in_range by exact Hidx.
    destruct (configure_ok _); [split; [exact Hidx|discriminate]|].
    destruct (1 <? List.length keys)%nat; [|split; [exact Hidx|discriminate]].
    apply IH. simpl. apply Nat.mod_upper_bound. lia.
Qed.

(** From any index, even one past the end of the pool, a rotation over
    a non-empty pool leaves the index inside the pool and never fails
    with an index error. *)
Theorem rotate_gemini_key_in_range (fuel : nat) (g : globals) (Hk : keys <> []) :
  let '(g', _, r) := rotate_gemini_key keys configure_ok fuel g in
  (current_key_index g' < List.length keys)%nat /\
  r <> Raise (RuntimeError "list index out of range").
Proof.
  unfold rotate_gemini_key, configure_gemini.
  assert (Hn : List.length keys <> 0%nat) by (destruct keys; simpl; congruence).
  pose proof (configure_gemini_aux_in_range fuel
               (mkGlobals (S (current_key_index g) mod List.length keys) (model g))
               (Nat.mod_upper_bound _ _ Hn)) as H.
  destruct keys; [congruence|]. exact H.
Qed.

End KeyPool.

Section WorkerMore.
Import Vault Worker.
Context `{F : Fernet}.
Context (owner : Z) (keys : list string) (master : string) (threshold : Z)
        (configure_ok : string -> bool) (fuel : nat).

Ltac unfold_py :=
  unfold mbind, py_mbind, py_bind, py_lift, py_get, mret, py_mret,
    py_ret, reply, py_emit, py_try, generate_content, check_and_exit_if_bot_dead,
    py_raise.

(** The worker's [main], when there are several keys and none
    configures, dies with [RecursionError] inside [configure_gemini],
    before it reads the clone record, whatever the database holds. *)
Theorem worker_main_all_keys_fail (d : db) (g : globals)
    (Hfail : Forall (fun k => configure_ok k = false) keys)
    (Hmany : (1 < List.length keys)%nat)
    (Hidx : (current_key_index g < List.length keys)%nat) :
  worker_main owner keys master configure_ok fuel d g
  = (mkGlobals ((current_key_index g + fuel) mod List.length keys) (model g), [],
     Raise RecursionError).
Proof.
  unfold worker_main, configure_gemini. unfold_py.
  rewrite (configure_gemini_aux_all_fail keys configure_ok fuel g Hfail Hmany Hidx).
  reflexivity.
Qed.

(** When the clone's token is set and the liveness probe says the bot
    is gone, [chat_handler] raises [SystemExit(0)] before replying or
    calling the model, and leaves the globals alone. *)
Theorem chat_handler_dead_bot_exits (alive : string -> bool)
    (generate : string -> string -> result gen_response)
    (d : db) (msg : option string) (g : globals) (c : clone_dict)
    (Hget : get_clone master owner d = Ok (Some c))
    (Ht : truthy (cd_token c) = true) (Ha : alive (cd_token c) = false) :
  chat_handler owner keys master threshold configure_ok fuel alive generate d msg g
  = (g, [], Raise (SystemExit 0)).
Proof. unfold chat_handler. unfold_py. rewrite Hget. cbn -[truthy]. rewrite Ht, Ha. reflexivity. Qed.

(** When the clone record cannot be decrypted, [chat_handler] raises
    the vault's error before replying or calling the model. *)
Theorem chat_handler_record_error (alive : string -> bool)
    (generate : string -> string -> result gen_response)
    (d : db) (msg : option string) (g : globals) (e : exc)
    (Hget : get_clone master owner d = Raise e) :
  chat_handler owner keys master threshold configure_ok fuel alive generate d msg g
  = (g, [], Raise e).
Proof. unfold chat_handler. unfold_py. rewrite Hget. reflexivity. Qed.

(** [set_instructions] never changes the database nor the globals and
    never confirms an update: it returns the database it was given,
    unless loading the record raised. *)
Theorem set_instructions_never_updates_db (iv sender : Z) (args : list string)
    (d : db) (g : globals) :
  let '(g', tr, r) := set_instructions owner master iv sender args d g in
  g' = g /\
  (r = Ok d \/ exists e, get_clone master owner d = Raise e /\ r = Raise e) /\
  ~ In (EvReply "✅ Instructions updated.") tr.
Proof.
  unfold set_instructions. unfold_py.
  destruct (negb (sender =? owner));
    [|destruct (get_clone master owner d) as [[c|]|e]; [destruct args| |]]; simpl;
    (split; [reflexivity|split; [eauto|]]);
    intros Hin; repeat (destruct Hin as [Hin|Hin]; [discriminate|]); contradiction.
Qed.

(** [clear_instructions] never changes the database nor the globals and
    never confirms clearing: it returns the database it was given,
    unless loading the record raised. *)
Theorem clear_instructions_never_clears (iv sender : Z) (d : db) (g : globals) :
  let '(g', tr, r) := clear_instructions owner master iv sender d g in
  g' = g /\
  (r = Ok d \/ exists e, get_clone master owner d = Raise e /\ r = Raise e) /\
  ~ In (EvReply "✅ Instructions cleared.") tr.
Proof.
  unfold clear_instructions. unfold_py.
  destruct (negb (sender =? owner));
    [|destruct (get_clone master owner d) as [[c|]|e]]; simpl;
    (split; [reflexivity|split; [eauto|]]);
    intros Hin; repeat (destruct Hin as [Hin|Hin]; [discriminate|]); contradiction.
Qed.

(** A sender other than the owner gets the rejection of either owner
    command, and the database is not even read: the commands answer the
    same way when the record cannot be decrypted. *)
Theorem owner_commands_reject_others (iv sender : Z) (args : list string)
    (d : db) (g : globals) (Hs : sender <> owner) :
  set_instructions owner master iv sender args d g
  = (g, [EvReply "❌ Only the owner can change instructions."], Ok d) /\
  clear_instructions owner master iv sender d g
  = (g, [EvReply "❌ Only the owner can clear instructions."], Ok d).
Proof.
  unfold set_instructions, clear_instructions. unfold_py.
  rewrite (proj2 (Z.eqb_neq _ _) Hs). split; reflexivity.
Qed.

(** After [save_clone] of the owner's clone with instructions [ins],
    the owner's [/set_instructions] without arguments shows [ins] (or
    "(none)" when it is empty), with a cipher whose decryption inverts
    encryption. *)
Theorem set_instructions_shows_saved
    (Hdec : forall key iv p, fernet_decrypt key (fernet_encrypt key iv p) = Some p)
    (iv iv' : Z) (tok bu ins : string) (d : db) (g : globals) :
  let d1 := save_clone master iv owner tok bu ins d in
  set_instructions owner master iv' owner [] d1 g
  = (g, [EvReply ("📝 Current instructions:" ++ nl ++ nl
                  ++ (if truthy ins then ins else "(none)") ++ nl ++ nl
                  ++ "To change: /set_instructions [text]" ++ nl
                  ++ "To clear: /clear_instructions")], Ok d1).
Proof.
  intros d1. unfold set_instructions. unfold_py.
  rewrite Z.eqb_refl. simpl.
  unfold get_clone, d1, save_clone. simpl. rewrite lookup_insert_eq. simpl.
  rewrite Hdec. reflexivity.
Qed.

(** [/start] on a worker greets with the sender's first name, else
    username, else id, and always presents the clone as
    ["user_" ++ CLONE_USER_ID]: the dict of [get_clone] has no
    [owner_username] key, so the owner's username is never shown. *)
Theorem start_cmd_greeting (sender_id : Z) (first_name : string)
    (username : option string) (d : db) (g : globals) (clone : option clone_dict)
    (Hget : get_clone master owner d = Ok clone) :
  let sender_name :=
    if truthy first_name then first_name
    else match username with
         | Some u => if truthy u then u else z_str sender_id
         | None => z_str sender_id
         end in
  start_cmd owner master sender_id first_name username d g
  = (g, [EvReply ("Hey " ++ sender_name ++ ", I am user_" ++ z_str owner
                  ++ " ai do you understand what I mean?")], Ok tt).
Proof.
  intros sender_name. unfold start_cmd. unfold_py. rewrite Hget.
  destruct clone as [c|]; reflexivity.
Qed.

End WorkerMore.

(* ================================================================== *)
(** * Further properties of the orchestrator *)

Section MasterMore.
Import Vault Master MasterCmds.
Context `{F : Fernet}.

Lemma list_active_clones_ok_ids (master : string) (d : db) (cs : list clone_dict)
    (H : list_active_clones master d = Ok cs) :
  map cd_user_id cs = active_ids d.
Proof.
  assert (Hrows : Forall (fun uid => exists row, clones d !! uid = Some row) (active_ids d)).
  { apply Forall_forall. intros uid Hin. apply active_ids_spec in Hin.
    destruct Hin as [row [Hrow _]]. eauto. }
  pose proof (collect_clones_cases master (active_ids d) d Hrows) as Hc.
  unfold list_active_clones in H. rewrite H in Hc. exact (proj1 Hc).
Qed.

(** The referrer is told about every counted join with the "joined"
    message, carrying the new count [c] and [max 0 (threshold - c)]
    remaining, also on the join that reaches the threshold: since
    [increment_referral] already returns [verified=true] there, the
    premium branch of [handle_referral] is never taken. *)
Theorem handle_referral_notifies_joined (t : Z) (code : string) (r j : Z)
    (name : string) (st : master_state)
    (Hcode : referral_codes st !! code = Some r)
    (Hnew : referral_users st !! j = None) :
  let c := referral_count r (m_db st) + 1 in
  snd (handle_referral t code j name st)
  = [SendMessage r (joined_msg name c (Z.max 0 (t - c))); ReplyText welcome_referral_msg].
Proof.
  intros c. subst c. unfold handle_referral. rewrite Hcode, Hnew.
  pose proof (increment_referral_spec t r (m_db st)) as [_ [Hr _]].
  destruct (increment_referral t r (m_db st)) as [d' ret]. simpl in Hr. subst ret.
  rewrite referral_count_default. simpl.
  destruct (verified _), (t <=? _); reflexivity.
Qed.

(** After a counted join, the in-memory [user_referrals] entry of the
    referrer equals the persisted referral row, the joiner is recorded
    against the referrer and the referral codes are unchanged.  The
    joiner is not compared with the referrer: following one's own link
    counts as a join. *)
Theorem handle_referral_cache_matches_db (t : Z) (code : string) (r j : Z)
    (name : string) (st : master_state)
    (Hcode : referral_codes st !! code = Some r)
    (Hnew : referral_users st !! j = None) :
  let st' := fst (handle_referral t code j name st) in
  user_referrals st' !! r = referrals (m_db st') !! r /\
  referral_users st' !! j = Some r /\
  referral_codes st' = referral_codes st.
Proof.
  intros st'. subst st'. unfold handle_referral. rewrite Hcode, Hnew.
  pose proof (increment_referral_spec t r (m_db st)) as [Hl [Hr _]].
  destruct (increment_referral t r (m_db st)) as [d' ret]. simpl in Hl, Hr. subst ret.
  simpl. rewrite lookup_insert_eq, lookup_insert_eq, Hl, decide_True by reflexivity.
  split; [|split; reflexivity].
  destruct (verified _), (t <=? _); reflexivity.
Qed.

(** [/share] from a user who is not in [cloned_apps] and has no active
    clone record answers with the "create your bot first" notice and
    registers no code, unless loading the active clones raises, in which
    case the command raises the same error. *)
Theorem share_command_requires_clone (master : string) (cloned_apps : gset Z)
    (u : Z) (hex master_username : string) (st : master_state)
    (Hca : u ∉ cloned_apps)
    (Hno : forall row, clones (m_db st) !! u = Some row -> active row = false) :
  share_command master cloned_apps u hex master_username st
  = Ok (st, [ReplyText not_cloned_msg]) \/
  exists e, list_active_clones master (m_db st) = Raise e /\
            share_command master cloned_apps u hex master_username st = Raise e.
Proof.
  unfold share_command. rewrite decide_False by exact Hca.
  destruct (list_active_clones master (m_db st)) as [cs|e] eqn:Hl; [left|right; eauto].
  rewrite (list_active_clones_ok_ids _ _ _ Hl).
  rewrite bool_decide_eq_false_2; [reflexivity|].
  rewrite active_ids_spec. intros [row [Hrow Hact]]. rewrite (Hno row Hrow) in Hact.
  discriminate.
Qed.

(** The code handed out by a successful [/share] works: a new joiner
    starting the bot with ["ref_" ++ user_id ++ "_" ++ hex] adds one to
    the persisted referral count of the sharing user. *)
Theorem share_then_referral_counts (master : string) (cloned_apps : gset Z)
    (u : Z) (hex master_username : string) (st st1 : master_state)
    (msgs : list outgoing) (t j : Z) (name : string)
    (Hs : share_command master cloned_apps u hex master_username st = Ok (st1, msgs))
    (Hreg : msgs <> [ReplyText not_cloned_msg])
    (Hnew : referral_users st !! j = None) :
  referral_count u (m_db (fst (handle_referral t ("ref_" ++ z_str u ++ "_" ++ hex) j name st1)))
  = referral_count u (m_db st) + 1.
Proof.
  unfold share_command in Hs.
  assert (Hst1 : st1 = mkMasterState (m_db st)
                         (<[("ref_" ++ z_str u ++ "_" ++ hex) := u]> (referral_codes st))
                         (referral_users st)
                         (match user_referrals st !! u with
                          | Some _ => user_referrals st
                          | None => <[u := mkReferralRow 0 false]> (user_referrals st)
                          end)).
  { destruct (decide (u ∈ cloned_apps));
      [|destruct (list_active_clones master (m_db st)) as [cs|e];
        [destruct (bool_decide (u ∈ map cd_user_id cs))|]];
      injection Hs as <- <- || discriminate Hs; try reflexivity;
      exfalso; apply Hreg; reflexivity. }
  subst st1. unfold handle_referral. simpl. rewrite lookup_insert_eq, Hnew.
  pose proof (increment_referral_spec t u (m_db st)) as [Hl _].
  destruct (increment_referral t u (m_db st)) as [d' ret]. simpl in Hl |- *.
  rewrite !referral_count_default, Hl, decide_True by reflexivity. reflexivity.
Qed.

(** [receive_instructions] stores the stripped instructions in
    [user_instructions] and persists the clone, active, before it tries
    to spawn the worker, so that even when the spawn fails and the user
    is told so, the record stays active (and startup will try it
    again); the record reads back with the token, the bot username and
    the stripped instructions (with a cipher whose decryption inverts
    encryption). *)
Theorem receive_instructions_persists
    (Hdec : forall key iv p, fernet_decrypt key (fernet_encrypt key iv p) = Some p)
    (master : string) (iv : Z) (has_master_key : bool) (popen : Z -> result Z)
    (u : Z) (text tok bu : string) (ui : gmap Z string) (st : master_state) :
  let '(ui', st', out, logs) :=
    receive_instructions master iv has_master_key popen u text tok bu ui st in
  ui' !! u = Some (Worker.strip text) /\
  u ∈ active_ids (m_db st') /\
  get_clone master u (m_db st') = Ok (Some (mkCloneDict u bu tok (Worker.strip text) true)) /\
  out = [ReplyText (match spawn_clone_worker has_master_key popen u with
                    | Ok _ => live_msg bu (Worker.strip text)
                    | Raise _ => start_failed_msg
                    end)] /\
  logs = match spawn_clone_worker has_master_key popen u with
         | Ok _ => []
         | Raise e => ["Error starting cloned bot: " ++ exc_str e]
         end.
Proof.
  unfold receive_instructions.
  destruct (spawn_clone_worker has_master_key popen u); simpl;
    (split; [apply lookup_insert_eq|split; [|split; [|split; reflexivity]]]);
    [rewrite active_ids_spec; simpl; rewrite lookup_insert_eq; eauto
    |unfold get_clone; simpl; rewrite lookup_insert_eq; simpl; rewrite Hdec; reflexivity
    |rewrite active_ids_spec; simpl; rewrite lookup_insert_eq; eauto
    |unfold get_clone; simpl; rewrite lookup_insert_eq; simpl; rewrite Hdec; reflexivity].
Qed.

(** The master's [/set_instructions] with arguments stores them joined
    by single spaces (not stripped) for that user only; a following
    [/clear_instructions] removes the entry, restoring the dict as it was
    without that user, and a second [/clear_instructions] reports that
    nothing is set. *)
Theorem master_set_clear_instructions (u : Z) (args : list string)
    (ui : gmap Z string) (Hargs : args <> []) :
  let ui1 := fst (MasterCmds.set_instructions u args ui) in
  ui1 !! u = Some (Worker.join " " args) /\
  (forall v, v <> u -> ui1 !! v = ui !! v) /\
  fst (MasterCmds.clear_instructions u ui1) = delete u ui /\
  MasterCmds.clear_instructions u (fst (MasterCmds.clear_instructions u ui1))
  = (delete u ui, [ReplyText "You don't have any custom instructions set.🥲"]).
Proof.
  intros ui1. subst ui1.
  destruct args as [|a rest]; [congruence|]. unfold MasterCmds.set_instructions.
  cbn [fst]. unfold MasterCmds.clear_instructions.
  rewrite lookup_insert_eq. cbn [fst].
  split; [reflexivity|]. split; [intros v Hv; apply lookup_insert_ne; congruence|].
  rewrite delete_insert_eq, lookup_delete_eq. split; reflexivity.
Qed.

End MasterMore.

(* ------------------------------------------------------------------ *)
(** ** Concrete instances of the further properties *)

Lemma configure_gemini_first_configurable_key_witness :
  Worker.configure_gemini_aux three_keys (fun k => String.eqb k "k3") 10 (mkGlobals 0 None)
  = (mkGlobals 2 (Some "k3"), [], Ok tt).
Proof.
  rewrite (configure_gemini_first_configurable_key three_keys (fun k => String.eqb k "k3")
             10 2 (mkGlobals 0 None) ltac:(simpl; lia) ltac:(simpl; lia) eq_refl
             ltac:(intros j' Hj'; destruct j' as [|[|j']]; [reflexivity|reflexivity|lia])
             ltac:(lia)).
  reflexivity.
Defined.

Lemma configure_gemini_all_keys_fail_witness :
  Worker.configure_gemini_aux three_keys (fun _ => false) 100 (mkGlobals 0 (Some "k1"))
  = (mkGlobals 1 (Some "k1"), [], Raise RecursionError).
Proof.
  rewrite (configure_gemini_all_keys_fail three_keys (fun _ => false) 100 (mkGlobals 0 (Some "k1"))
             ltac:(repeat constructor) ltac:(simpl; lia) ltac:(simpl; lia)).
  reflexivity.
Defined.

Lemma rotate_gemini_key_in_range_witness :
  Worker.rotate_gemini_key three_keys (fun k => String.eqb k "k2") 10 (mkGlobals 7 None)
  = (mkGlobals 1 (Some "k2"), [], Ok tt) /\
  (let '(g', _, r) := Worker.rotate_gemini_key three_keys (fun k => String.eqb k "k2") 10
                        (mkGlobals 7 None) in
   (current_key_index g' < List.length three_keys)%nat /\
   r <> Raise (RuntimeError "list index out of range")).
Proof.
  split; [reflexivity|].
  exact (rotate_gemini_key_in_range three_keys (fun k => String.eqb k "k2") 10
           (mkGlobals 7 None) ltac:(discriminate)).
Defined.

Lemma worker_main_all_keys_fail_witness :
  Worker.worker_main 7 three_keys "mk" (fun _ => false) 50 empty_db (mkGlobals 0 None)
  = (mkGlobals 2 None, [], Raise RecursionError).
Proof.
  rewrite worker_main_all_keys_fail;
    [reflexivity | repeat constructor | simpl; lia | simpl; lia].
Defined.

Lemma chat_handler_dead_bot_exits_witness :
  Worker.chat_handler 7 three_keys "mk" 5 (fun _ => true) 10 (fun _ => false)
    (fun _ _ => Ok (mkGenResponse (Some "Hi.") "Hi.")) (owner_db "You are terse.")
    (Some "hi") (mkGlobals 0 (Some "k1"))
  = (mkGlobals 0 (Some "k1"), [], Raise (SystemExit 0)).
Proof. eapply chat_handler_dead_bot_exits; reflexivity. Defined.

Lemma chat_handler_record_error_witness :
  Worker.chat_handler 7 three_keys "mk" 5 (fun _ => true) 10 (fun _ => true)
    (fun _ _ => Ok (mkGenResponse (Some "Hi.") "Hi.")) foreign_key_db
    (Some "hi") (mkGlobals 0 (Some "k1"))
  = (mkGlobals 0 (Some "k1"), [], Raise (RuntimeError Vault.decrypt_failed_msg)).
Proof. eapply chat_handler_record_error; reflexivity. Defined.

Lemma owner_commands_reject_others_witness :
  Worker.set_instructions 7 "mk" 3 8 ["Obey"; "me."] foreign_key_db (mkGlobals 0 None)
  = (mkGlobals 0 None, [EvReply "❌ Only the owner can change instructions."], Ok foreign_key_db) /\
  Worker.clear_instructions 7 "mk" 3 8 foreign_key_db (mkGlobals 0 None)
  = (mkGlobals 0 None, [EvReply "❌ Only the owner can clear instructions."], Ok foreign_key_db).
Proof. apply owner_commands_reject_others. lia. Defined.

Lemma set_instructions_shows_saved_witness :
  Worker.set_instructions 7 "mk" 2 7 []
    (Vault.save_clone "mk" 1 7 "123:abc" "my_bot" "You are terse." empty_db) (mkGlobals 0 None)
  = (mkGlobals 0 None,
     [EvReply ("📝 Current instructions:" ++ nl ++ nl ++ "You are terse." ++ nl ++ nl
               ++ "To change: /set_instructions [text]" ++ nl
               ++ "To clear: /clear_instructions")],
     Ok (Vault.save_clone "mk" 1 7 "123:abc" "my_bot" "You are terse." empty_db)).
Proof.
  apply (@set_instructions_shows_saved keyed_fernet).
  intros key iv p. simpl. rewrite String.eqb_refl. reflexivity.
Defined.

Lemma start_cmd_greeting_witness :
  Worker.start_cmd 7 "mk" 42 "" (Some "alice") (owner_db "You are terse.") (mkGlobals 0 None)
  = (mkGlobals 0 None, [EvReply "Hey alice, I am user_7 ai do you understand what I mean?"],
     Ok tt).
Proof. eapply start_cmd_greeting. reflexivity. Defined.

Lemma handle_referral_notifies_joined_witness :
  snd (Master.handle_referral 5 "ref_1_a1b2c3d4" 42 "alice" four_referrals_master)
  = [Master.SendMessage 1 (Master.joined_msg "alice" 5 0);
     Master.ReplyText Master.welcome_referral_msg].
Proof. eapply handle_referral_notifies_joined; reflexivity. Defined.

Lemma handle_referral_cache_matches_db_witness :
  let st' := fst (Master.handle_referral 5 "ref_1_a1b2c3d4" 1 "carol" fresh_master) in
  (Master.user_referrals st' !! 1 = Vault.referrals (Master.m_db st') !! 1 /\
   Master.referral_users st' !! 1 = Some 1 /\
   Master.referral_codes st' = Master.referral_codes fresh_master) /\
  Vault.referral_count 1 (Master.m_db st') = 1.
Proof.
  split; [|reflexivity].
  apply handle_referral_cache_matches_db; reflexivity.
Defined.

Lemma share_command_requires_clone_witness :
  MasterCmds.share_command "mk" ∅ 8 "a1b2c3d4" "dax_bot"
    (Master.mkMasterState (owner_db "You are terse.") ∅ ∅ ∅)
  = Ok (Master.mkMasterState (owner_db "You are terse.") ∅ ∅ ∅,
        [Master.ReplyText MasterCmds.not_cloned_msg]) \/
  exists e, Vault.list_active_clones "mk" (owner_db "You are terse.") = Raise e /\
            MasterCmds.share_command "mk" ∅ 8 "a1b2c3d4" "dax_bot"
              (Master.mkMasterState (owner_db "You are terse.") ∅ ∅ ∅) = Raise e.
Proof.
  apply share_command_requires_clone.
  - apply not_elem_of_empty.
  - intros row Hrow. vm_compute in Hrow. discriminate.
Defined.

Lemma share_then_referral_counts_witness :
  Vault.referral_count 7
    (Master.m_db (fst (Master.handle_referral 5 ("ref_" ++ z_str 7 ++ "_" ++ "a1b2c3d4") 42 "alice"
       (Master.mkMasterState (owner_db "You are terse.") {["ref_7_a1b2c3d4" := 7]} ∅
          {[7 := Vault.mkReferralRow 0 false]}))))
  = Vault.referral_count 7 (Master.m_db (Master.mkMasterState (owner_db "You are terse.") ∅ ∅ ∅)) + 1.
Proof.
  eapply (share_then_referral_counts "mk" ∅ 7 "a1b2c3d4" "dax_bot"
            (Master.mkMasterState (owner_db "You are terse.") ∅ ∅ ∅));
    [reflexivity | discriminate | reflexivity].
Defined.

Lemma receive_instructions_persists_witness :
  (let '(ui', st', out, logs) :=
    MasterCmds.receive_instructions "mk" 1 true
      (fun _ => Raise (RuntimeError "[Errno 2] No such file or directory")) 7
      "  You are terse.　" "123:abc" "my_bot" ∅ (Master.mkMasterState empty_db ∅ ∅ ∅) in
  ui' !! 7 = Some (Worker.strip "  You are terse.　") /\
  7 ∈ Vault.active_ids (Master.m_db st') /\
  Vault.get_clone "mk" 7 (Master.m_db st')
  = Ok (Some (Vault.mkCloneDict 7 "my_bot" "123:abc" (Worker.strip "  You are terse.　") true)) /\
  out = [Master.ReplyText
           (match Master.spawn_clone_worker true
                    (fun _ => Raise (RuntimeError "[Errno 2] No such file or directory")) 7 with
            | Ok _ => MasterCmds.live_msg "my_bot" (Worker.strip "  You are terse.　")
            | Raise _ => MasterCmds.start_failed_msg
            end)] /\
  logs = match Master.spawn_clone_worker true
                 (fun _ => Raise (RuntimeError "[Errno 2] No such file or directory")) 7 with
         | Ok _ => []
         | Raise e => ["Error starting cloned bot: " ++ exc_str e]
         end) /\
  Worker.strip "  You are terse.　" = "You are terse.".
Proof.
  split; [|reflexivity].
  apply (@receive_instructions_persists keyed_fernet).
  intros key iv p. simpl. rewrite String.eqb_refl. reflexivity.
Defined.

Lemma master_set_clear_instructions_witness :
  let ui1 := fst (MasterCmds.set_instructions 7 ["Be"; "kind."] {[8 := "Be brief."]}) in
  ui1 !! 7 = Some (Worker.join " " ["Be"; "kind."]) /\
  (forall v, v <> 7 -> ui1 !! v = ({[8 := "Be brief."]} : gmap Z string) !! v) /\
  fst (MasterCmds.clear_instructions 7 ui1) = delete 7 {[8 := "Be brief."]} /\
  MasterCmds.clear_instructions 7 (fst (MasterCmds.clear_instructions 7 ui1))
  = (delete 7 {[8 := "Be brief."]}, [Master.ReplyText "You don't have any custom instructions set.🥲"]).
Proof. apply master_set_clear_instructions. discriminate. Defined.

(* ================================================================== *)
(** * Further properties of the master bot's handlers *)

Section MasterBotMore.
Import Vault Master MasterBot.
Context `{F : Fernet}.
Context (keys : list string) (configure : string -> result unit) (fuel : nat).

Ltac unfold_chat :=
  unfold chat, mbind, py_mbind, py_bind, py_lift, py_get, mret, py_mret, py_ret,
    reply, py_emit, py_try, Worker.generate_content.

(** [chat] handles every exception of the model call and of loading the
    active clones: it raises only when the [switch_key] of its quota
    branch raises, and then with that exception. *)
Theorem master_chat_raises_only_from_switch_key (master : string)
    (generate : string -> string -> result gen_response) (u : Z) (msg : option string)
    (ui : gmap Z string) (st : master_state) (g : globals) :
  let '(_, _, r) := chat keys configure fuel master generate u msg ui st g in
  r = Ok tt \/
  exists g1 t1 e, switch_key keys configure fuel g = (g1, t1, Raise e) /\ r = Raise e.
Proof.
  unfold_chat. destruct (model g) as [k|] eqn:Hm; [|left; reflexivity].
  cbn -[switch_key list_active_clones].
  rewrite Hm.
  destruct (generate k _) as [resp|e]; cbn -[switch_key list_active_clones].
  - destruct (list_active_clones master (m_db st)) as [cs|e]; [left; reflexivity|].
    cbn -[switch_key].
    destruct (is_quota_error (exc_str e)); [|left; reflexivity].
    destruct (switch_key keys configure fuel g) as [[g1 t1] [[]|e1]]; [left; reflexivity|].
    right; eauto.
  - destruct (is_quota_error (exc_str e)); [|left; reflexivity].
    destruct (switch_key keys configure fuel g) as [[g1 t1] [[]|e1]]; [left; reflexivity|].
    right; eauto.
Qed.

(** On a configured master whose model call succeeds, the user gets
    the model's text with the watermark exactly when they have an active
    clone and their in-memory referral entry is absent or unverified,
    and then with [5] minus the in-memory count remaining ([5] without
    an entry).  The persisted referral table is never read: the run is
    the same whatever it holds, so after a restart of the master (empty
    in-memory dict) a verified user is watermarked again. *)
Theorem master_chat_watermark_from_cache (master : string)
    (generate : string -> string -> result gen_response) (u : Z) (msg : option string)
    (ui : gmap Z string) (st : master_state) (g : globals) (k prompt : string)
    (resp : gen_response) (cs : list clone_dict)
    (Hm : model g = Some k)
    (Hprompt : prompt = let instructions := default "" (ui !! u) in
                        if truthy instructions
                        then instructions ++ nl ++ nl ++ "User: " ++ default "" msg
                        else default "" msg)
    (Hgen : generate k prompt = Ok resp)
    (Hl : list_active_clones master (m_db st) = Ok cs) :
  let cached := user_referrals st !! u in
  chat keys configure fuel master generate u msg ui st g
  = (g, [EvGenerate k prompt;
         EvReply (if bool_decide (u ∈ map cd_user_id cs) &&
                     match cached with Some r => negb (verified r) | None => true end
                  then response_text resp ++
                       watermark_msg (5 - match cached with Some r => count r | None => 0 end)
                  else response_text resp)], Ok tt) /\
  (forall refs : gmap Z referral_row,
     chat keys configure fuel master generate u msg ui
       (mkMasterState (mkDb (clones (m_db st)) refs) (referral_codes st)
          (referral_users st) (user_referrals st)) g
     = chat keys configure fuel master generate u msg ui st g).
Proof.
  intros cached. split.
  - subst prompt cached. unfold_chat. rewrite Hm. cbn -[list_active_clones].
    destruct (ui !! u) as [ins|]; cbn in Hgen |- *; rewrite Hm; cbn; rewrite Hgen;
      cbn -[list_active_clones]; rewrite Hl; reflexivity.
  - intros refs. unfold_chat. cbn [m_db user_referrals].
    rewrite list_active_clones_referrals. reflexivity.
Qed.

(** When loading the active clones raises [e] (an undecryptable active
    record does), with no quota marker in its message, every message to
    a configured master whose model call succeeds is answered with the
    generic error after the model call, never with the model's text. *)
Theorem master_chat_record_error (master : string)
    (generate : string -> string -> result gen_response) (u : Z) (msg : option string)
    (ui : gmap Z string) (st : master_state) (g : globals) (k prompt : string)
    (resp : gen_response) (e : exc)
    (Hm : model g = Some k)
    (Hprompt : prompt = let instructions := default "" (ui !! u) in
                        if truthy instructions
                        then instructions ++ nl ++ nl ++ "User: " ++ default "" msg
                        else default "" msg)
    (Hgen : generate k prompt = Ok resp)
    (Hl : list_active_clones master (m_db st) = Raise e)
    (Hq : is_quota_error (exc_str e) = false) :
  chat keys configure fuel master generate u msg ui st g
  = (g, [EvGenerate k prompt; EvLog ("Error: " ++ exc_str e); EvReply error_msg],
     Ok tt).
Proof.
  subst prompt. unfold_chat. rewrite Hm. cbn -[list_active_clones].
  destruct (ui !! u) as [ins|]; cbn in Hgen |- *; rewrite Hm; cbn; rewrite Hgen;
    cbn -[list_active_clones]; rewrite Hl; cbn -[is_quota_error]; rewrite Hq; reflexivity.
Qed.

(** With a single key whose configuration fails with [e'], a quota
    error of the model makes [chat] call [switch_key], which re-raises
    [e']: the exception escapes the handler and the user gets no
    reply. *)
Theorem master_chat_quota_single_key_raises (master : string)
    (generate : string -> string -> result gen_response) (u : Z) (msg : option string)
    (ui : gmap Z string) (st : master_state) (g : globals) (k k0 prompt : string) (e e' : exc)
    (Hkeys : keys = [k0]) (Hfuel : (0 < fuel)%nat)
    (Hm : model g = Some k)
    (Hprompt : prompt = let instructions := default "" (ui !! u) in
                        if truthy instructions
                        then instructions ++ nl ++ nl ++ "User: " ++ default "" msg
                        else default "" msg)
    (Hgen : generate k prompt = Raise e)
    (Hq : is_quota_error (exc_str e) = true)
    (Hcfg : configure k0 = Raise e') :
  chat keys configure fuel master generate u msg ui st g
  = (mkGlobals 0 (Some k),
     [EvGenerate k prompt; EvLog ("Failed to configure Gemini: " ++ exc_str e')],
     Raise e').
Proof.
  destruct fuel as [|f]; [lia|]. subst prompt.
  unfold_chat. rewrite Hm. cbn -[switch_key].
  destruct (ui !! u) as [ins|]; cbn -[switch_key] in Hgen |- *; rewrite Hm; cbn -[switch_key];
    rewrite Hgen; cbn -[switch_key is_quota_error]; rewrite Hq;
    unfold switch_key, configure_gemini; rewrite Hkeys; cbn -[Nat.modulo];
    rewrite Nat.mod_1_r; cbn; rewrite Hcfg; cbn; rewrite Hm; reflexivity.
Qed.

End MasterBotMore.

Section MasterStartMore.
Import Vault Master MasterCmds MasterBot.
Context `{F : Fernet}.

Lemma handle_referral_recorded_joiner (t : Z) (code : string) (j x : Z) (name : string)
    (st : master_state) (Hj : referral_users st !! j = Some x) :
  fst (handle_referral t code j name st) = st.
Proof.
  unfold handle_referral. destruct (referral_codes st !! code); [rewrite Hj|]; reflexivity.
Qed.

Lemma start_recorded_joiner (t : Z) (j x : Z) (un : option string) (args : list string)
    (st : master_state) (Hj : referral_users st !! j = Some x) :
  fst (start t j un args st) = st.
Proof.
  unfold start.
  destruct args as [|a rest]; [|destruct (String.prefix "ref_" a);
                                 [apply (handle_referral_recorded_joiner _ _ _ x); exact Hj|]];
    destruct (user_referrals st !! j) as [r|]; try destruct (verified r); reflexivity.
Qed.

(** A [/start] with a registered referral code records the joiner, and
    from then on no [/start] of that user, with the same code, another
    user's code or no code, changes the state: a user is counted at most
    once, for the first referrer. *)
Theorem start_counts_joiner_once (t j : Z) (un un' : option string) (c1 : string)
    (rest args2 : list string) (st : master_state) (r : Z)
    (Hpre : String.prefix "ref_" c1 = true) (Hcode : referral_codes st !! c1 = Some r) :
  let st1 := fst (start t j un (c1 :: rest) st) in
  is_Some (referral_users st1 !! j) /\ fst (start t j un' args2 st1) = st1.
Proof.
  cbv zeta.
  assert (Hrec : is_Some (referral_users (fst (start t j un (c1 :: rest) st)) !! j)).
  { unfold start. rewrite Hpre. unfold handle_referral. rewrite Hcode.
    destruct (referral_users st !! j) as [x|] eqn:Hj; [simpl; rewrite Hj; eauto|].
    destruct (increment_referral t r (m_db st)) as [d' row]. simpl.
    rewrite lookup_insert_eq. eauto. }
  split; [exact Hrec|]. destruct Hrec as [x Hx].
  exact (start_recorded_joiner t j x un' args2 _ Hx).
Qed.

(** [/share] of a user with no in-memory referral entry (as after a
    restart of the master) reports progress [0/5] and [5] remaining, and
    a following [/start] of that user asks for [5] more shares, whatever
    the persisted referral row holds. *)
Theorem share_then_start_ignore_db (master : string) (cloned_apps : gset Z) (u : Z)
    (hex master_username : string) (st st1 : master_state) (msgs : list outgoing)
    (t : Z) (un : option string)
    (Hs : share_command master cloned_apps u hex master_username st = Ok (st1, msgs))
    (Hreg : msgs <> [ReplyText not_cloned_msg])
    (Hc : user_referrals st !! u = None) :
  msgs = [ReplyText (share_msg ("https://t.me/" ++ master_username ++ "?start=ref_"
                                ++ z_str u ++ "_" ++ hex) 0 5)] /\
  snd (start t u un [] st1) = [ReplyText (share_nag_msg 5)].
Proof.
  unfold share_command in Hs.
  assert (Hok : forall b : bool,
             match (if b then Ok true else Ok false) : result bool with
             | Raise e => Raise e
             | Ok false => Ok (st, [ReplyText not_cloned_msg])
             | Ok true =>
                 let referral_code := "ref_" ++ z_str u ++ "_" ++ hex in
                 let codes' := <[referral_code := u]> (referral_codes st) in
                 let refs' := match user_referrals st !! u with
                              | Some _ => user_referrals st
                              | None => <[u := mkReferralRow 0 false]> (user_referrals st)
                              end in
                 let cnt := count (default (mkReferralRow 0 false) (refs' !! u)) in
                 let referral_link :=
                   "https://t.me/" ++ master_username ++ "?start=" ++ referral_code in
                 Ok (mkMasterState (m_db st) codes' (referral_users st) refs',
                     [ReplyText (share_msg referral_link cnt (5 - cnt))])
             end = Ok (st1, msgs) ->
             msgs = [ReplyText (share_msg ("https://t.me/" ++ master_username ++ "?start=ref_"
                                           ++ z_str u ++ "_" ++ hex) 0 5)] /\
             snd (start t u un [] st1) = [ReplyText (share_nag_msg 5)]).
  { intros [|] H; simpl in H; [|injection H as <- <-; congruence].
    rewrite Hc, lookup_insert_eq in H. simpl in H. injection H as <- <-.
    split; [reflexivity|]. unfold start; simpl. rewrite lookup_insert_eq. reflexivity. }
  destruct (decide (u ∈ cloned_apps)).
  - exact (Hok true Hs).
  - destruct (list_active_clones master (m_db st)) as [cs|e]; [|discriminate].
    apply (Hok (bool_decide (u ∈ map cd_user_id cs))).
    destruct (bool_decide (u ∈ map cd_user_id cs)); exact Hs.
Qed.

Lemma run_conv_rejected_tokens (master : string) (iv : Z) (hk : bool)
    (popen : Z -> result Z) (get_me : string -> get_me_result) (u : Z)
    (bad : list string) (rest : list update) (P : bot_state -> Prop)
    (Hbad : Forall (fun tk => forall b, get_me (Worker.strip tk) <> GetMeOk b) bad) :
  forall s : bot_state,
  b_conv s = Some ASK_TOKEN ->
  (forall ud, match run_conv master iv hk popen get_me u rest
                      (mkBotState (b_ui s) (b_st s) ud (Some ASK_TOKEN)) with
              | Some (s', _, _) => P s'
              | None => False
              end) ->
  match run_conv master iv hk popen get_me u (map UText bad ++ rest) s with
  | Some (s', _, _) => P s'
  | None => False
  end.
Proof.
  induction Hbad as [|tk bad' Htk _ IH]; intros [ui st ud cv] Hcv Hrest; simpl in Hcv; subst cv.
  - apply Hrest.
  - simpl. unfold conv_handler, receive_token. simpl.
    destruct (get_me (Worker.strip tk)) as [b| |e] eqn:Hg; [exfalso; exact (Htk b eq_refl)| |];
      simpl;
      match goal with
      | |- context [run_conv master iv hk popen get_me u (map UText bad' ++ rest) ?s1] =>
          specialize (IH s1 eq_refl Hrest);
          destruct (run_conv master iv hk popen get_me u (map UText bad' ++ rest) s1)
            as [[[s2 o2] l2]|]; exact IH
      end.
Qed.

(** The [/clone] conversation: after [/clone], any number of tokens
    that fail validation (each kept at [ASK_TOKEN], with nothing
    saved), a token that validates as bot [b] and a message of
    instructions, the conversation has ended, the stripped instructions
    are in [user_instructions] and the vault holds an active clone with
    the stripped validated token, [b] and the stripped instructions
    (with a cipher whose decryption inverts encryption), whether or not
    the worker could be spawned. *)
Theorem clone_conversation_saves_validated_token
    (Hdec : forall key iv p, fernet_decrypt key (fernet_encrypt key iv p) = Some p)
    (master : string) (iv : Z) (hk : bool) (popen : Z -> result Z)
    (get_me : string -> get_me_result) (u : Z) (args bad : list string)
    (tk instr b : string) (s : bot_state)
    (Hs : b_conv s = None)
    (Hbad : Forall (fun t => forall b', get_me (Worker.strip t) <> GetMeOk b') bad)
    (Hok : get_me (Worker.strip tk) = GetMeOk b) :
  match run_conv master iv hk popen get_me u
          (UCommand "clone" args :: map UText bad ++ [UText tk; UText instr]) s with
  | Some (s', _, _) =>
      b_conv s' = None /\
      b_ui s' !! u = Some (Worker.strip instr) /\
      get_clone master u (m_db (b_st s'))
      = Ok (Some (mkCloneDict u b (Worker.strip tk) (Worker.strip instr) true))
  | None => False
  end.
Proof.
  destruct s as [ui st ud cv]; simpl in Hs; subst cv. simpl.
  match goal with
  | |- context [run_conv master iv hk popen get_me u (map UText bad ++ ?r) ?s1] =>
      pose proof (run_conv_rejected_tokens master iv hk popen get_me u bad r
                    (fun s' => b_conv s' = None /\
                               b_ui s' !! u = Some (Worker.strip instr) /\
                               get_clone master u (m_db (b_st s'))
                               = Ok (Some (mkCloneDict u b (Worker.strip tk)
                                             (Worker.strip instr) true))) Hbad s1 eq_refl) as H;
      destruct (run_conv master iv hk popen get_me u (map UText bad ++ r) s1)
        as [[[s2 o2] l2]|]; apply H
  end.
  all: intros ud'; simpl; unfold conv_handler, receive_token; simpl; rewrite Hok; simpl;
    unfold MasterCmds.receive_instructions;
    destruct (spawn_clone_worker hk popen u); simpl;
    (split; [reflexivity|split; [apply lookup_insert_eq|]]);
    unfold get_clone; simpl; rewrite lookup_insert_eq; simpl; rewrite Hdec; reflexivity.
Qed.

End MasterStartMore.

Lemma master_chat_watermark_from_cache_witness :
  MasterBot.chat ["k1"] (fun _ => Ok tt) 10 "mk"
    (fun _ _ => Ok (mkGenResponse (Some "Hi there.") "resp")) 7 (Some "hello")
    {[7 := "Be terse."]} (restarted_master 5 true) (mkGlobals 0 (Some "k1"))
  = (mkGlobals 0 (Some "k1"),
     [EvGenerate "k1" ("Be terse." ++ nl ++ nl ++ "User: hello");
      EvReply ("Hi there." ++ MasterBot.watermark_msg 5)], Ok tt) /\
  Vault.referral_verified 7 (Master.m_db (restarted_master 5 true)) = true /\
  MasterBot.chat ["k1"] (fun _ => Ok tt) 10 "mk"
    (fun _ _ => Ok (mkGenResponse (Some "Hi there.") "resp")) 7 (Some "hello") ∅
    (Master.mkMasterState (referred_owner_db 0 false) ∅ ∅ {[7 := Vault.mkReferralRow 2 false]})
    (mkGlobals 0 (Some "k1"))
  = (mkGlobals 0 (Some "k1"),
     [EvGenerate "k1" "hello"; EvReply ("Hi there." ++ MasterBot.watermark_msg 3)], Ok tt).
Proof.
  split; [|split; [reflexivity|]].
  - rewrite (proj1 (master_chat_watermark_from_cache ["k1"] (fun _ => Ok tt) 10 "mk"
             (fun _ _ => Ok (mkGenResponse (Some "Hi there.") "resp")) 7 (Some "hello")
             {[7 := "Be terse."]} (restarted_master 5 true) (mkGlobals 0 (Some "k1")) "k1"
             ("Be terse." ++ nl ++ nl ++ "User: hello")
             (mkGenResponse (Some "Hi there.") "resp")
             [Vault.mkCloneDict 7 "my_bot" "123:abc" "You are terse." true]
             ltac:(vm_compute; reflexivity) ltac:(vm_compute; reflexivity)
             ltac:(vm_compute; reflexivity) ltac:(vm_compute; reflexivity))).
    reflexivity.
  - rewrite (proj1 (master_chat_watermark_from_cache ["k1"] (fun _ => Ok tt) 10 "mk"
             (fun _ _ => Ok (mkGenResponse (Some "Hi there.") "resp")) 7 (Some "hello") ∅
             (Master.mkMasterState (referred_owner_db 0 false) ∅ ∅
                {[7 := Vault.mkReferralRow 2 false]})
             (mkGlobals 0 (Some "k1")) "k1" "hello"
             (mkGenResponse (Some "Hi there.") "resp")
             [Vault.mkCloneDict 7 "my_bot" "123:abc" "You are terse." true]
             ltac:(vm_compute; reflexivity) ltac:(vm_compute; reflexivity)
             ltac:(vm_compute; reflexivity) ltac:(vm_compute; reflexivity))).
    reflexivity.
Defined.

Lemma master_chat_record_error_witness :
  MasterBot.chat ["k1"] (fun _ => Ok tt) 10 "mk"
    (fun _ _ => Ok (mkGenResponse (Some "Hi there.") "resp")) 7 (Some "hello") ∅
    (Master.mkMasterState foreign_key_db ∅ ∅ ∅) (mkGlobals 0 (Some "k1"))
  = (mkGlobals 0 (Some "k1"),
     [EvGenerate "k1" "hello"; EvLog ("Error: " ++ Vault.decrypt_failed_msg);
      EvReply MasterBot.error_msg], Ok tt).
Proof.
  apply (master_chat_record_error ["k1"] (fun _ => Ok tt) 10 "mk"
           (fun _ _ => Ok (mkGenResponse (Some "Hi there.") "resp")) 7 (Some "hello") ∅
           (Master.mkMasterState foreign_key_db ∅ ∅ ∅) (mkGlobals 0 (Some "k1")) "k1" "hello"
           (mkGenResponse (Some "Hi there.") "resp") (RuntimeError Vault.decrypt_failed_msg));
    vm_compute; reflexivity.
Defined.

Lemma master_chat_quota_single_key_raises_witness :
  MasterBot.chat ["k1"] (fun _ => Raise (RuntimeError "API key not valid")) 10 "mk"
    (fun _ _ => Raise (GenerationError "429 Resource has been exhausted (e.g. check quota).")) 7
    (Some "hello") ∅ (restarted_master 3 false) (mkGlobals 0 (Some "k1"))
  = (mkGlobals 0 (Some "k1"),
     [EvGenerate "k1" "hello"; EvLog ("Failed to configure Gemini: " ++ "API key not valid")],
     Raise (RuntimeError "API key not valid")).
Proof.
  apply (master_chat_quota_single_key_raises ["k1"]
           (fun _ => Raise (RuntimeError "API key not valid")) 10 "mk"
           (fun _ _ => Raise (GenerationError "429 Resource has been exhausted (e.g. check quota)."))
           7 (Some "hello") ∅ (restarted_master 3 false) (mkGlobals 0 (Some "k1")) "k1" "k1" "hello"
           (GenerationError "429 Resource has been exhausted (e.g. check quota).")
           (RuntimeError "API key not valid"));
    first [lia | vm_compute; reflexivity].
Defined.

Lemma start_counts_joiner_once_witness :
  (let st1 := fst (MasterBot.start 5 42 (Some "alice") ["ref_1_a1b2c3d4"] fresh_master) in
   is_Some (Master.referral_users st1 !! 42) /\
   fst (MasterBot.start 5 42 None ["ref_1_a1b2c3d4"] st1) = st1) /\
  Vault.referral_count 1
    (Master.m_db (fst (MasterBot.start 5 42 (Some "alice") ["ref_1_a1b2c3d4"] fresh_master))) = 1.
Proof.
  split; [|reflexivity].
  apply (start_counts_joiner_once 5 42 (Some "alice") None "ref_1_a1b2c3d4" []
           ["ref_1_a1b2c3d4"] fresh_master 1); reflexivity.
Defined.

Lemma share_then_start_ignore_db_witness :
  [Master.ReplyText (MasterCmds.share_msg "https://t.me/dax_bot?start=ref_7_a1b2c3d4" 0 5)]
  = [Master.ReplyText (MasterCmds.share_msg
       ("https://t.me/" ++ "dax_bot" ++ "?start=ref_" ++ z_str 7 ++ "_" ++ "a1b2c3d4") 0 5)] /\
  snd (MasterBot.start 5 7 None []
         (Master.mkMasterState (referred_owner_db 3 false) {["ref_7_a1b2c3d4" := 7]} ∅
            {[7 := Vault.mkReferralRow 0 false]}))
  = [Master.ReplyText (MasterBot.share_nag_msg 5)].
Proof.
  apply (share_then_start_ignore_db "mk" ∅ 7 "a1b2c3d4" "dax_bot" (restarted_master 3 false)
           (Master.mkMasterState (referred_owner_db 3 false) {["ref_7_a1b2c3d4" := 7]} ∅
              {[7 := Vault.mkReferralRow 0 false]})
           [Master.ReplyText (MasterCmds.share_msg "https://t.me/dax_bot?start=ref_7_a1b2c3d4" 0 5)]
           5 None);
    [reflexivity | discriminate | reflexivity].
Defined.

Lemma clone_conversation_saves_validated_token_witness :
  match MasterBot.run_conv "mk" 1 true (fun _ => Ok 4242) get_me_demo 7
          (MasterBot.UCommand "clone" [] :: map MasterBot.UText ["oops"; "12:xyz"]
             ++ [MasterBot.UText " 123:abc "; MasterBot.UText "  Be terse. "]) idle_user with
  | Some (s', _, _) =>
      MasterBot.b_conv s' = None /\
      MasterBot.b_ui s' !! 7 = Some (Worker.strip "  Be terse. ") /\
      Vault.get_clone "mk" 7 (Master.m_db (MasterBot.b_st s'))
      = Ok (Some (Vault.mkCloneDict 7 "my_bot" (Worker.strip " 123:abc ")
                    (Worker.strip "  Be terse. ") true))
  | None => False
  end.
Proof.
  apply (@clone_conversation_saves_validated_token keyed_fernet).
  - intros key iv p. simpl. rewrite String.eqb_refl. reflexivity.
  - reflexivity.
  - repeat constructor; intros b' H; vm_compute in H; discriminate.
  - reflexivity.
Defined.
